(** * Hourly weather ingestion (ingest_weather.py): model and properties

    The script fetches one pipe-delimited file per weather station, keeps the
    rows whose assembled timestamp lies in an inclusive range, concatenates
    the stations, normalises the measurement columns, derives [is_rain] and
    writes one columnar file.

    The development follows the script top to bottom:
    - [Py]      the string methods the script calls ([strip], [split], [lower]);
    - [Frame]   the table operations it calls on data frames;
    - [Eff]     a trace-and-exception monad for the input/output it performs;
    - [Calendar] one concrete instance of the date and number parsers of the
                table library, used to run the script on examples;
    - section [Ingest]: the script itself, over an arbitrary remote source and
                arbitrary parsers;
    - [Example] two station files to run it on;
    - section [Properties]: the properties of the specification. *)

From Stdlib Require Import ZArith QArith Ascii String List Lia.
From stdpp Require Import base option list strings gmap fin_maps.

Local Open Scope Z_scope.

(** ** Python string methods *)

Module Py.

(** [str.isspace] on one ASCII character: TAB..CR, FS..US and the blank.
    Strings are byte strings here; the non-ASCII blanks of Unicode are not
    modelled. *)
Definition isspace (a : ascii) : bool :=
  let n := nat_of_ascii a in
  ((9 <=? n)%nat && (n <=? 13)%nat) || ((28 <=? n)%nat && (n <=? 32)%nat).

Fixpoint lstrip (s : string) : string :=
  match s with
  | EmptyString => EmptyString
  | String a s' => if isspace a then lstrip s' else s
  end.

Fixpoint rstrip (s : string) : string :=
  match s with
  | EmptyString => EmptyString
  | String a s' =>
      match rstrip s' with
      | EmptyString => if isspace a then EmptyString else String a EmptyString
      | t => String a t
      end
  end.

(** [s.strip()] *)
Definition strip (s : string) : string := rstrip (lstrip s).

(** [s.split(sep)] for a one-character separator: never returns the empty
    list, and keeps empty fields. *)
Fixpoint split (sep : ascii) (s : string) : list string :=
  match s with
  | EmptyString => [EmptyString]
  | String a s' =>
      if Ascii.eqb a sep then EmptyString :: split sep s'
      else match split sep s' with
           | [] => [String a EmptyString]
           | w :: ws => String a w :: ws
           end
  end.

Definition lower_char (a : ascii) : ascii :=
  let n := nat_of_ascii a in
  if (65 <=? n)%nat && (n <=? 90)%nat then ascii_of_nat (n + 32) else a.

(** [s.lower()] on ASCII text. *)
Fixpoint lower (s : string) : string :=
  match s with
  | EmptyString => EmptyString
  | String a s' => String (lower_char a) (lower s')
  end.

(** [sep.join(parts)] *)
Definition join (sep : string) (parts : list string) : string :=
  String.concat sep parts.

(** Truth value of a string: non-empty. *)
Definition truthy (s : string) : bool :=
  match s with EmptyString => false | _ => true end.

(** Every character of the string passes the test. *)
Fixpoint all_chars (p : ascii -> bool) (s : string) : bool :=
  match s with
  | EmptyString => true
  | String a s' => p a && all_chars p s'
  end.

End Py.

(** ** Cells, rows and data frames *)

(** A cell of a table after the file has been read: a number (finite floats
    and integers are represented by the rational they denote), a text, the
    missing marker [NaN], a timestamp (a point of the integer time line the
    library maps dates to) or the missing timestamp [NaT]. The reader is
    taken to tokenise cell by cell; its per-chunk choice of a column type is
    not modelled. *)
Inductive cell : Type :=
  | CNum (q : Q)
  | CStr (s : string)
  | CNaN
  | CTime (t : Z)
  | CNaT.

#[global] Instance Q_eq_dec : EqDecision Q.
Proof. solve_decision. Defined.

#[global] Instance cell_eq_dec : EqDecision cell.
Proof. solve_decision. Defined.

(** A row maps column names to cells; the order of the columns is kept once,
    in the frame. *)
Record DataFrame : Type := mkFrame {
  columns : list string;
  rows : list (gmap string cell)
}.

#[global] Instance DataFrame_eq_dec : EqDecision DataFrame.
Proof. solve_decision. Defined.

(** The errors the script can stop with. *)
Inductive error : Type :=
  | ValueError (msg : string)
  | KeyError (col : string)
  | DateParseError (text : string)
  | ReadError (url : string).

Inductive result (A : Type) : Type :=
  | Ok (a : A)
  | Raise (e : error).
Arguments Ok {A} a.
Arguments Raise {A} e.

(** What the script does to the outside world, in program order. The values
    printed on the console are not modelled, only which print ran. *)
Inductive event : Type :=
  | EMkdir (path : string)
  | EReadCsv (url : string)
  | EPrint (label : string)
  | EToParquet (path : string) (df : DataFrame).

#[global] Instance event_eq_dec : EqDecision event.
Proof. solve_decision. Defined.


(** ** Trace-and-exception monad *)

Module Eff.

Definition M (A : Type) : Type := (list event * result A)%type.

Definition ret {A} (a : A) : M A := ([], Ok a).

Definition bind {A B} (m : M A) (f : A -> M B) : M B :=
  match m with
  | (t, Ok a) => let '(t', r) := f a in (t ++ t', r)
  | (t, Raise e) => (t, Raise e)
  end.

Definition raise {A} (e : error) : M A := ([], Raise e).

Definition emit (ev : event) : M unit := ([ev], Ok tt).

(** A computation that cannot touch the outside world. *)
Definition lift {A} (r : result A) : M A := ([], r).

Definition trace {A} (m : M A) : list event := fst m.
Definition outcome {A} (m : M A) : result A := snd m.

End Eff.

Declare Scope eff_scope.
Delimit Scope eff_scope with eff.
Notation "x <- m ;; k" := (Eff.bind m (fun x => k))
  (at level 100, m at next level, right associativity) : eff_scope.
Notation "m ;;; k" := (Eff.bind m (fun _ => k))
  (at level 100, right associativity) : eff_scope.

(** Exceptions alone, for the pure parts. *)
Definition rbind {A B} (r : result A) (f : A -> result B) : result B :=
  match r with
  | Ok a => f a
  | Raise e => Raise e
  end.

(** ** Data-frame operations the script calls *)

Module Frame.

(** The cell of row [r] in column [c]; a column the row does not carry
    reads as missing. *)
Definition cell_at (c : string) (r : gmap string cell) : cell :=
  default CNaN (r !! c).

(** [df[c]]: the column as a series, or [KeyError]. *)
Definition getitem (df : DataFrame) (c : string) : result (list cell) :=
  if decide (c ∈ columns df) then Ok (cell_at c <$> rows df)
  else Raise (KeyError c).

(** [df[c] = series]: overwrite the column, or add it as the last one.
    The script only assigns series computed from [df] itself, so the
    lengths agree. *)
Definition setitem (df : DataFrame) (c : string) (series : list cell)
  : DataFrame :=
  {| columns := if decide (c ∈ columns df) then columns df
                else columns df ++ [c];
     rows := zip_with (fun r v => <[c := v]> r) (rows df) series |}.

(** [mask.any()] *)
Definition any (mask : list bool) : bool := existsb id mask.

(** [df.loc[mask].copy()]: the rows whose mask entry is true, in order. *)
Definition loc (df : DataFrame) (mask : list bool) : DataFrame :=
  {| columns := columns df;
     rows := fst <$> filter (fun p => snd p = true) (zip (rows df) mask) |}.

(** [df.empty]: some axis has length zero. *)
Definition empty (df : DataFrame) : bool :=
  match rows df, columns df with
  | [], _ | _, [] => true
  | _, _ => false
  end.

(** [pd.DataFrame(columns=cols)] *)
Definition of_columns (cols : list string) : DataFrame :=
  {| columns := cols; rows := [] |}.

Definition union_columns (acc cols : list string) : list string :=
  acc ++ filter (fun c => c ∉ acc) cols.

(** [pd.concat(frames, ignore_index=True)]: the columns of the first frame,
    then the new names of the later ones; the rows of all frames in order.
    The library refuses the empty list. *)
Definition concat (frames : list DataFrame) : result DataFrame :=
  match frames with
  | [] => Raise (ValueError "No objects to concatenate")
  | df :: rest =>
      Ok {| columns := fold_left union_columns (columns <$> rest) (columns df);
            rows := mjoin (rows <$> frames) |}
  end.

(** [df.columns = [f(c) for c in df.columns]] *)
Definition rename_columns (f : string -> string) (df : DataFrame)
  : DataFrame :=
  {| columns := f <$> columns df;
     rows := (fun r : gmap string cell => kmap (M2 := gmap string) f r)
               <$> rows df |}.

(** [series.astype(int)] on a boolean series. *)
Definition astype_int (bs : list bool) : list cell :=
  (fun b : bool => if b then CNum 1 else CNum 0) <$> bs.

(** [series > 0]: false on a missing value. The script compares the
    precipitation column only after [to_numeric], which leaves numbers and
    missing values. *)
Definition gt0 (c : cell) : bool :=
  match c with
  | CNum q => (0 <? Qnum q)
  | _ => false
  end.

(** [series >= ts] and [series <= ts] on a timestamp series: false on
    [NaT]. *)
Definition ge_ts (ts : Z) (c : cell) : bool :=
  match c with CTime t => (ts <=? t) | _ => false end.
Definition le_ts (ts : Z) (c : cell) : bool :=
  match c with CTime t => (t <=? ts) | _ => false end.

(** The chunks of a chunked read: consecutive groups of [n] rows, the last
    one possibly shorter; [k] is the room left in the group being filled. *)
Fixpoint chunk_go {A} (n k : nat) (l : list A) : list (list A) :=
  match l with
  | [] => []
  | x :: l' =>
      match k with
      | O | S O => [x] :: chunk_go n n l'
      | S k' =>
          match chunk_go n k' l' with
          | [] => [[x]]
          | c :: cs => (x :: c) :: cs
          end
      end
  end.
Definition chunk_list {A} (n : nat) (l : list A) : list (list A) :=
  chunk_go n n l.

End Frame.

Declare Scope result_scope.
Delimit Scope result_scope with res.
Notation "x <- r ;; k" := (rbind r (fun x => k))
  (at level 100, r at next level, right associativity) : result_scope.

(** ** What the table library parses

    Three parsers of the library are used by the script and are not part of
    it. The script is modelled over any implementation of them. *)
Class Library : Type := {
  (** [pd.to_datetime(text)] on one text; [None] when the library raises. *)
  pd_to_datetime : string -> option Z;
  (** [pd.to_datetime(dict(year=.., month=.., day=.., hour=.., minute=..),
      errors="coerce")] on the five cells of one row; [None] is [NaT]. *)
  pd_assemble : cell -> cell -> cell -> cell -> cell -> option Z;
  (** the number a text denotes for [pd.to_numeric]; [None] when it denotes
      none. *)
  pd_parse_number : string -> option Q
}.

(** ** A concrete library instance for examples *)

Module Calendar.

Definition is_leap (y : Z) : bool :=
  ((y mod 4 =? 0) && negb (y mod 100 =? 0)) || (y mod 400 =? 0).

Definition days_in_month (y m : Z) : Z :=
  if m =? 2 then (if is_leap y then 29 else 28)
  else if (m =? 4) || (m =? 6) || (m =? 9) || (m =? 11) then 30
  else 31.

Definition valid_date (y m d : Z) : bool :=
  (1 <=? y) && (y <=? 9999) && (1 <=? m) && (m <=? 12)
  && (1 <=? d) && (d <=? days_in_month y m).

(** Days from 1970-01-01 to the given proleptic Gregorian date; timestamps
    of this instance count minutes from 1970-01-01 00:00. *)
Definition days_from_civil (y m d : Z) : Z :=
  let y' := if m <=? 2 then y - 1 else y in
  let era := y' / 400 in
  let yoe := y' - era * 400 in
  let mp := if 2 <? m then m - 3 else m + 9 in
  let doy := (153 * mp + 2) / 5 + d - 1 in
  let doe := yoe * 365 + yoe / 4 - yoe / 100 + doy in
  era * 146097 + doe - 719468.

Definition minutes_of (y m d h mi : Z) : option Z :=
  if valid_date y m d then Some (days_from_civil y m d * 1440 + h * 60 + mi)
  else None.

Definition int_of_cell (c : cell) : option Z :=
  match c with
  | CNum q => if Pos.eqb (Qden q) 1 then Some (Qnum q) else None
  | _ => None
  end.

(** Year, month and day must be integers that form a calendar date; hours
    and minutes are added to its midnight. *)
Definition assemble (y m d h mi : cell) : option Z :=
  y' ← int_of_cell y; m' ← int_of_cell m; d' ← int_of_cell d;
  h' ← int_of_cell h; mi' ← int_of_cell mi;
  minutes_of y' m' d' h' mi'.

Definition digit (a : ascii) : option Z :=
  let n := nat_of_ascii a in
  if (48 <=? n)%nat && (n <=? 57)%nat then Some (Z.of_nat n - 48) else None.

Fixpoint digits_go (acc : Z) (s : string) : option Z :=
  match s with
  | EmptyString => Some acc
  | String a s' => d ← digit a; digits_go (acc * 10 + d) s'
  end.

(** A non-empty run of decimal digits. *)
Definition digits (s : string) : option Z :=
  match s with
  | EmptyString => None
  | _ => digits_go 0 s
  end.

(** Texts of the form [YYYY-MM-DD HH:MM]. *)
Definition to_datetime (s : string) : option Z :=
  if bool_decide (String.length s = 16%nat
                  ∧ String.get 4 s = Some "-"%char
                  ∧ String.get 7 s = Some "-"%char
                  ∧ String.get 10 s = Some " "%char
                  ∧ String.get 13 s = Some ":"%char)
  then
    y ← digits (String.substring 0 4 s);
    m ← digits (String.substring 5 2 s);
    d ← digits (String.substring 8 2 s);
    h ← digits (String.substring 11 2 s);
    mi ← digits (String.substring 14 2 s);
    if (h <=? 23) && (mi <=? 59) then minutes_of y m d h mi else None
  else None.

(** Decimal numbers [-?digits(.digits)?]. *)
Definition parse_unsigned (s : string) : option Q :=
  match Py.split "." s with
  | [i] => z ← digits i; Some (inject_Z z)
  | [i; f] =>
      z ← digits i; n ← digits f;
      Some (Qmake (z * 10 ^ Z.of_nat (String.length f) + n)
                  (Z.to_pos (10 ^ Z.of_nat (String.length f))))
  | _ => None
  end.

Definition parse_number (s : string) : option Q :=
  match s with
  | String "-" s' => q ← parse_unsigned s'; Some (Qopp q)
  | _ => parse_unsigned s
  end.

Definition library : Library :=
  {| pd_to_datetime := to_datetime;
     pd_assemble := assemble;
     pd_parse_number := parse_number |}.

End Calendar.

(** ** The script: constants *)

Definition GHCNH_BASE_URL : string :=
  "https://www.ncei.noaa.gov/oa/global-historical-climatology-network".

Definition CORE_STATIONS : list string :=
  ["USW00094728"; "USW00094789"; "USW00014732"; "USW00014734"].

Definition OUT_DIR : string := "data/raw/weather_hourly".

(** [STATION_FILE_TEMPLATE.format(station=station_id)] *)
Definition STATION_FILE_TEMPLATE (station : string) : string :=
  GHCNH_BASE_URL +:+ "/hourly/access/by-station/GHCNh_" +:+ station
  +:+ "_por.psv".

Definition USE_COLS : list string :=
  ["Station_ID"; "Station_name"; "Year"; "Month"; "Day"; "Hour"; "Minute";
   "Latitude"; "Longitude"; "Elevation"; "temperature";
   "dew_point_temperature"; "station_level_pressure"; "sea_level_pressure";
   "wind_speed"; "wind_gust"; "precipitation"; "relative_humidity"].

(** The list the numeric-coercion loop of [main] runs over. *)
Definition MEASUREMENT_COLS : list string :=
  ["temperature"; "dew_point_temperature"; "station_level_pressure";
   "sea_level_pressure"; "wind_speed"; "wind_gust"; "precipitation";
   "relative_humidity"].

(** The parsed command line. *)
Record Args : Type := mkArgs {
  start : string;
  end_ : string;
  stations : string;
  chunksize : Z
}.

(** The command line with the optional arguments left out. *)
Definition default_args (start_date end_date : string) : Args :=
  {| start := start_date; end_ := end_date;
     stations := Py.join "," CORE_STATIONS; chunksize := 200000 |}.

(** [OUT_DIR / f"weather_hourly_{start}_to_{end}.parquet"] *)
Definition out_path (a : Args) : string :=
  OUT_DIR +:+ "/" +:+ "weather_hourly_" +:+ start a +:+ "_to_" +:+ end_ a
  +:+ ".parquet".

(** [[s.strip() for s in text.split(",") if s.strip()]] *)
Definition station_ids_of (text : string) : list string :=
  Py.strip <$> filter (fun s => Py.truthy (Py.strip s) = true)
                      (Py.split "," text).

(** ** The script: functions *)

Section Ingest.

Context {L : Library}.

(** The remote file server: the table behind a URL as the reader tokenises
    it (header order and one row per line), or [None] when fetching or
    parsing it fails. *)
Variable remote : string -> option DataFrame.

Definition timestamp_cell (o : option Z) : cell :=
  match o with Some t => CTime t | None => CNaT end.

(** The timestamp of one row from its five fields. *)
Fixpoint assemble_series (ys ms ds hs mis : list cell) : list cell :=
  match ys, ms, ds, hs, mis with
  | y :: ys', m :: ms', d :: ds', h :: hs', mi :: mis' =>
      timestamp_cell (pd_assemble y m d h mi)
      :: assemble_series ys' ms' ds' hs' mis'
  | _, _, _, _, _ => []
  end.

Definition parse_datetime_frame (frame : DataFrame) : result (list cell) :=
  (year <- Frame.getitem frame "Year";;
   month <- Frame.getitem frame "Month";;
   day <- Frame.getitem frame "Day";;
   hour <- Frame.getitem frame "Hour";;
   minute <- Frame.getitem frame "Minute";;
   Ok (assemble_series year month day hour minute))%res.

(** [usecols=cols]: every requested column must be in the file; the
    columns kept are those of the file that were requested, in file order. *)
Definition project_columns (cols : list string) (file : DataFrame)
  : DataFrame :=
  {| columns := filter (fun c => c ∈ cols) (columns file);
     rows := (fun r : gmap string cell =>
                filter (fun kv => kv.1 ∈ cols) r) <$> rows file |}.

Definition select_usecols (cols : list string) (file : DataFrame)
  : result DataFrame :=
  if decide (Forall (fun c => c ∈ columns file) cols)
  then Ok (project_columns cols file)
  else Raise (ValueError "Usecols do not match columns").

(** [pd.read_csv(url, sep="|", usecols=cols, chunksize=n)], read to the
    end: the chunk size is checked before the file is opened. *)
Definition read_csv (url : string) (cols : list string) (n : Z)
  : Eff.M (list DataFrame) :=
  if n <? 1 then Eff.raise (ValueError "chunksize must be an integer >=1")
  else
    (Eff.emit (EReadCsv url) ;;;
     match remote url with
     | None => Eff.raise (ReadError url)
     | Some file =>
         table <- Eff.lift (select_usecols cols file) ;;
         Eff.ret (mkFrame (columns table)
                    <$> Frame.chunk_list (Z.to_nat n) (rows table))
     end)%eff.

(** The body of the chunk loop of [read_station_hourly]. *)
Definition keep_chunk (start_ts end_ts : Z) (kept : list DataFrame)
  (chunk : DataFrame) : result (list DataFrame) :=
  (datetime <- parse_datetime_frame chunk;;
   let chunk := Frame.setitem chunk "datetime" datetime in
   lo <- Frame.getitem chunk "datetime";;
   hi <- Frame.getitem chunk "datetime";;
   let mask := zip_with andb (Frame.ge_ts start_ts <$> lo)
                             (Frame.le_ts end_ts <$> hi) in
   if Frame.any mask then Ok (kept ++ [Frame.loc chunk mask])
   else Ok kept)%res.

Fixpoint for_chunks (start_ts end_ts : Z) (kept : list DataFrame)
  (chunks : list DataFrame) : result (list DataFrame) :=
  match chunks with
  | [] => Ok kept
  | chunk :: rest =>
      (kept' <- keep_chunk start_ts end_ts kept chunk;;
       for_chunks start_ts end_ts kept' rest)%res
  end.

Definition read_station_hourly (station_id : string) (start_ts end_ts : Z)
  (chunksize : Z) : Eff.M DataFrame :=
  let url := STATION_FILE_TEMPLATE station_id in
  (Eff.emit (EPrint "station_url:") ;;;
   chunks <- read_csv url USE_COLS chunksize ;;
   kept <- Eff.lift (for_chunks start_ts end_ts [] chunks) ;;
   match kept with
   | [] => Eff.ret (Frame.of_columns (USE_COLS ++ ["datetime"]))
   | _ => Eff.lift (Frame.concat kept)
   end)%eff.

(** [pd.to_numeric(series, errors="coerce")] on one cell. Timestamps do
    not occur in the columns it is applied to. *)
Definition to_numeric (c : cell) : cell :=
  match c with
  | CNum q => CNum q
  | CStr s => match pd_parse_number s with
              | Some q => CNum q
              | None => CNaN
              end
  | CNaN | CTime _ | CNaT => CNaN
  end.

(** The body of the coercion loop of [main]. *)
Definition coerce_column (df : DataFrame) (col : string)
  : result DataFrame :=
  if decide (col ∈ columns df)
  then (series <- Frame.getitem df col;;
        Ok (Frame.setitem df col (to_numeric <$> series)))%res
  else Ok df.

Fixpoint coerce_columns (df : DataFrame) (cols : list string)
  : result DataFrame :=
  match cols with
  | [] => Ok df
  | col :: rest =>
      (df' <- coerce_column df col;; coerce_columns df' rest)%res
  end.

(** Lines 119-135 of [main]: the post-processor. *)
Definition post_process (df : DataFrame) : result DataFrame :=
  let df := Frame.rename_columns Py.lower df in
  (df <- coerce_columns df MEASUREMENT_COLS;;
   precipitation <- Frame.getitem df "precipitation";;
   Ok (Frame.setitem df "is_rain"
         (Frame.astype_int (Frame.gt0 <$> precipitation))))%res.

(** The station loop of [main]. *)
Fixpoint for_stations (start_ts end_ts chunksize : Z)
  (frames : list DataFrame) (station_ids : list string)
  : Eff.M (list DataFrame) :=
  match station_ids with
  | [] => Eff.ret frames
  | station_id :: rest =>
      (df_station <- read_station_hourly station_id start_ts end_ts
                       chunksize ;;
       for_stations start_ts end_ts chunksize
         (if Frame.empty df_station then frames else frames ++ [df_station])
         rest)%eff
  end.

Definition to_datetime_text (text : string) : Eff.M Z :=
  match pd_to_datetime text with
  | Some t => Eff.ret t
  | None => Eff.raise (DateParseError text)
  end.

(** Lines 104-113 of [main]: the multi-station aggregator. *)
Definition aggregate (start_ts end_ts chunksize : Z)
  (station_ids : list string) : Eff.M DataFrame :=
  (frames <- for_stations start_ts end_ts chunksize [] station_ids ;;
   match frames with
   | [] => Eff.raise (ValueError
             "No data found for the provided stations and date range.")
   | _ => Eff.lift (Frame.concat frames)
   end)%eff.

Definition main (args : Args) : Eff.M unit :=
  (start_ts <- to_datetime_text (start args +:+ " 00:00") ;;
   end_ts <- to_datetime_text (end_ args +:+ " 23:59") ;;
   let station_ids := station_ids_of (stations args) in
   match station_ids with
   | [] => Eff.raise (ValueError "No stations provided.")
   | _ =>
       df <- aggregate start_ts end_ts (chunksize args) station_ids ;;
       Eff.emit (EPrint "shape:") ;;;
       Eff.emit (EPrint "cols:") ;;;
       Eff.emit (EPrint "head") ;;;
       df <- Eff.lift (post_process df) ;;
       _ <- Eff.lift (Frame.getitem df "datetime") ;;
       Eff.emit (EPrint "datetime_range:") ;;;
       Eff.emit (EToParquet (out_path args) df) ;;;
       Eff.emit (EPrint "saved:")
   end)%eff.

(** Running the file as a script: the module body creates the output
    directory, then [main] runs. *)
Definition script (args : Args) : Eff.M unit :=
  (Eff.emit (EMkdir OUT_DIR) ;;; main args)%eff.

(** *** Row-level readings of the loops, used to state the properties *)

(** The timestamp cell [parse_datetime_frame] computes for a row. *)
Definition row_datetime (r : gmap string cell) : cell :=
  timestamp_cell
    (pd_assemble (Frame.cell_at "Year" r) (Frame.cell_at "Month" r)
       (Frame.cell_at "Day" r) (Frame.cell_at "Hour" r)
       (Frame.cell_at "Minute" r)).

(** The mask entry of a row. *)
Definition row_in_range (start_ts end_ts : Z) (r : gmap string cell)
  : bool :=
  Frame.ge_ts start_ts (row_datetime r)
  && Frame.le_ts end_ts (row_datetime r).

(** The row with its [datetime] column set. *)
Definition stamp (r : gmap string cell) : gmap string cell :=
  <["datetime" := row_datetime r]> r.

(** What the two events of one station fetch are. *)
Definition station_events (station_id : string) : list event :=
  [EPrint "station_url:"; EReadCsv (STATION_FILE_TEMPLATE station_id)].

(** The columns of a chunk once [datetime] has been assigned. *)
Definition dt_columns (cols : list string) : list string :=
  if decide ("datetime" ∈ cols) then cols else cols ++ ["datetime"].

(** What one chunk adds to [kept]. *)
Definition kept_of_chunk (start_ts end_ts : Z) (chunk : DataFrame)
  : list DataFrame :=
  match filter (fun r => row_in_range start_ts end_ts r = true)
               (rows chunk) with
  | [] => []
  | sel => [mkFrame (dt_columns (columns chunk)) (stamp <$> sel)]
  end.

(** What a station fetch returns for a file already cut to [USE_COLS]. *)
Definition station_table (start_ts end_ts : Z) (table : DataFrame)
  : DataFrame :=
  match filter (fun r => row_in_range start_ts end_ts r = true)
               (rows table) with
  | [] => Frame.of_columns (USE_COLS ++ ["datetime"])
  | sel => mkFrame (dt_columns (columns table)) (stamp <$> sel)
  end.

(** One pass of the coercion loop on one row. *)
Definition coerce_cell (r : gmap string cell) (col : string)
  : gmap string cell :=
  <[col := to_numeric (Frame.cell_at col r)]> r.

Definition coerce_row (cols : list string) (r : gmap string cell)
  : gmap string cell :=
  fold_left coerce_cell cols r.

(** The [is_rain] assignment on one row. *)
Definition rain_row (r : gmap string cell) : gmap string cell :=
  <["is_rain" := if Frame.gt0 (Frame.cell_at "precipitation" r)
                 then CNum 1 else CNum 0]> r.

(** The columns once [is_rain] has been assigned. *)
Definition rain_columns (cols : list string) : list string :=
  if decide ("is_rain" ∈ cols) then cols else cols ++ ["is_rain"].

(** The post-processor on one row of a frame whose renamed columns are
    [cols]. *)
Definition post_row (cols : list string) (r : gmap string cell)
  : gmap string cell :=
  rain_row
    (coerce_row (filter (fun c => c ∈ cols) MEASUREMENT_COLS)
       (kmap (M2 := gmap string) Py.lower r)).

End Ingest.

(** A row carries cells for the columns of its frame only. *)
Definition keys_in (cols : list string) (r : gmap string cell) : Prop :=
  dom r ⊆ (list_to_set cols : gset string).

#[global] Instance keys_in_dec cols r : Decision (keys_in cols r).
Proof. unfold keys_in. apply _. Defined.

(** ** Two sentences of the specification, as written

    Both are compared with the script below. *)

(** "Given an empty/whitespace-only --stations value, the run fails with a
    configuration error ... before any I/O": the run ends in the
    configuration error and its trace is empty. *)
Definition fails_before_any_io {L : Library}
  (remote : string -> option DataFrame) (args : Args) : Prop :=
  script remote args = ([], Raise (ValueError "No stations provided.")).

(** "A row whose year/month/day/hour/minute fields do not form a valid
    timestamp is also retained rather than dropped": the fetched table has a
    row with the fields of every such row of the file. *)
Definition retains_invalid_timestamp_rows {L : Library}
  (remote : string -> option DataFrame) (station_id : string)
  (start_ts end_ts n : Z) : Prop :=
  forall file r,
    remote (STATION_FILE_TEMPLATE station_id) = Some file ->
    r ∈ rows file ->
    pd_assemble (Frame.cell_at "Year" r) (Frame.cell_at "Month" r)
      (Frame.cell_at "Day" r) (Frame.cell_at "Hour" r)
      (Frame.cell_at "Minute" r) = None ->
    exists df r',
      Eff.outcome (read_station_hourly remote station_id start_ts end_ts n)
      = Ok df
      /\ r' ∈ rows df
      /\ forall c, c ∈ USE_COLS -> Frame.cell_at c r' = Frame.cell_at c r.

(** The station list in the words of the specification: split on commas,
    strip each entry, drop the empty ones. *)
Definition station_list_spec (text : string) : list string :=
  filter (fun s => s <> EmptyString) (Py.strip <$> Py.split "," text).

(** ** Example data *)

Module Example.

(** One line of a station file. The file has one column more than the
    script asks for. *)
Definition obs (sid : string) (y m d h mi : Z)
  (temperature precipitation : cell) : gmap string cell :=
  list_to_map
    [("Station_ID", CStr sid); ("Station_name", CStr "NY CITY CENTRAL PARK");
     ("Year", CNum (inject_Z y)); ("Month", CNum (inject_Z m));
     ("Day", CNum (inject_Z d)); ("Hour", CNum (inject_Z h));
     ("Minute", CNum (inject_Z mi));
     ("Latitude", CNum (Qmake 407789 10000));
     ("Longitude", CNum (Qmake (-739692) 10000));
     ("Elevation", CNum (inject_Z 42));
     ("temperature", temperature);
     ("temperature_Quality_Code", CStr "1");
     ("dew_point_temperature", CNum (inject_Z 1));
     ("station_level_pressure", CNaN); ("sea_level_pressure", CNaN);
     ("wind_speed", CNum (inject_Z 3)); ("wind_gust", CNaN);
     ("precipitation", precipitation);
     ("relative_humidity", CStr "n/a")].

Definition header : list string :=
  ["Station_ID"; "Station_name"; "Year"; "Month"; "Day"; "Hour"; "Minute";
   "Latitude"; "Longitude"; "Elevation"; "temperature";
   "temperature_Quality_Code"; "dew_point_temperature";
   "station_level_pressure"; "sea_level_pressure"; "wind_speed";
   "wind_gust"; "precipitation"; "relative_humidity"].

(** A line whose month is 13. *)
Definition bad_row : gmap string cell :=
  obs "A" 2024 13 1 0 0 (CNum (inject_Z 2)) (CNum 1).

(** Station A: three lines on 2024-01-01 and 2024-01-02, one line a month
    later, and the line whose month is 13. *)
Definition file_A : DataFrame :=
  {| columns := header;
     rows := [obs "A" 2024 1 1 0 0 (CNum (inject_Z 5)) (CNum (Qmake 3 10));
              obs "A" 2024 1 1 13 0 (CStr "M") CNaN;
              obs "A" 2024 2 1 0 0 (CNum (inject_Z 2)) (CNum 0);
              bad_row;
              obs "A" 2024 1 2 23 59 (CNum (inject_Z (-1))) (CStr "0.5")] |}.

(** Station B: nothing in January 2024. *)
Definition file_B : DataFrame :=
  {| columns := header;
     rows := [obs "B" 2023 12 31 23 59 (CNum (inject_Z 4)) (CNum 1)] |}.

Definition remote (url : string) : option DataFrame :=
  if decide (url = STATION_FILE_TEMPLATE "A") then Some file_A
  else if decide (url = STATION_FILE_TEMPLATE "B") then Some file_B
  else None.

Definition args (station_list : string) (n : Z) : Args :=
  {| start := "2024-01-01"; end_ := "2024-01-02";
     stations := station_list; chunksize := n |}.

Definition start_ts : Z := 28401120.
Definition end_ts : Z := 28403999.

(** What a station fetch returns. *)
Definition fetched (station_id : string) : DataFrame :=
  match Eff.outcome (read_station_hourly (L := Calendar.library) remote
                       station_id start_ts end_ts 2) with
  | Ok df => df
  | Raise _ => Frame.of_columns []
  end.

(** Station A listed twice. *)
Definition listed_twice : string := "A, B ,A".

Definition trace_twice : list event :=
  Eff.trace (aggregate (L := Calendar.library) remote start_ts end_ts 2
               (station_ids_of listed_twice)).

Definition aggregated_twice : DataFrame :=
  match Eff.outcome (aggregate (L := Calendar.library) remote
                       start_ts end_ts 2 (station_ids_of listed_twice)) with
  | Ok df => df
  | Raise _ => Frame.of_columns []
  end.

(** The path of the file a run over these dates writes. *)
Definition written_path : string :=
  "data/raw/weather_hourly/weather_hourly_2024-01-01_to_2024-01-02.parquet".

(** A command line whose end date lies before its start date. *)
Definition reversed_args : Args :=
  {| start := "2024-01-02"; end_ := "2024-01-01";
     stations := "A, B"; chunksize := 2 |}.

(** The table [main] builds for stations A and B, before and after the
    post-processor. *)
Definition aggregated : DataFrame :=
  match Eff.outcome (aggregate (L := Calendar.library) remote
                       start_ts end_ts 2 ["A"; "B"]) with
  | Ok df => df
  | Raise _ => Frame.of_columns []
  end.

Definition processed : DataFrame :=
  match post_process (L := Calendar.library) aggregated with
  | Ok df => df
  | Raise _ => Frame.of_columns []
  end.

End Example.

(** * Properties *)

(** ** The building blocks on small inputs *)

Example strip_demo : Py.strip "  KJFK 1 " = "KJFK 1".
Proof. reflexivity. Qed.

Example split_demo : Py.split "," "a,, b " = ["a"; ""; " b "].
Proof. reflexivity. Qed.

Example split_empty_demo : Py.split "," "" = [""].
Proof. reflexivity. Qed.

Example lower_demo : Py.lower "Station_ID" = "station_id".
Proof. reflexivity. Qed.

Example station_ids_demo : station_ids_of " A ,,B, A" = ["A"; "B"; "A"].
Proof. reflexivity. Qed.

Example default_stations_demo :
  station_ids_of (stations (default_args "2024-01-01" "2024-01-02"))
  = CORE_STATIONS.
Proof. reflexivity. Qed.

Example chunk_list_demo :
  Frame.chunk_list 2 [1; 2; 3; 4; 5] = [[1; 2]; [3; 4]; [5]].
Proof. reflexivity. Qed.

Example to_datetime_demo :
  Calendar.to_datetime "2024-01-01 00:00" = Some 28401120
  /\ Calendar.to_datetime "2024-01-02 23:59" = Some 28403999
  /\ Calendar.to_datetime "2024-02-30 00:00" = None.
Proof. repeat split; by vm_compute. Qed.

Example assemble_demo :
  Calendar.assemble (CNum 2024) (CNum 13) (CNum 1) (CNum 0) (CNum 0) = None
  /\ Calendar.assemble (CNum 2024) (CNum 1) (CNum 1) (CNum 13) (CNum 0)
     = Some 28401900.
Proof. by vm_compute. Qed.

Example parse_number_demo :
  Calendar.parse_number "0.5" = Some (Qmake 5 10)
  /\ Calendar.parse_number "-12" = Some (Qmake (-12) 1)
  /\ Calendar.parse_number "M" = None.
Proof. by vm_compute. Qed.

Example out_path_demo :
  out_path (Example.args "A" 2)
  = "data/raw/weather_hourly/weather_hourly_2024-01-01_to_2024-01-02.parquet".
Proof. reflexivity. Qed.

(** Closes a goal from a hypothesis that puts an event into a list of
    events of other kinds. *)
Ltac event_absurd H :=
  exfalso;
  repeat (apply elem_of_cons in H as [H|H]; [discriminate H|]);
  exact (not_elem_of_nil _ H).

Section Properties.

Context {L : Library}.

(** ** Chunks *)

Lemma mjoin_cons {A} (l : list A) (ls : list (list A)) :
  mjoin (l :: ls) = l ++ mjoin ls.
Proof. reflexivity. Qed.

Lemma filter_none {A} (P : A -> Prop) `{forall x, Decision (P x)} l :
  Forall (fun x => ~ P x) l -> filter P l = [].
Proof. induction 1; [done|]. by rewrite filter_cons_False. Qed.

Lemma chunk_go_join {A} (n k : nat) (l : list A) :
  mjoin (Frame.chunk_go n k l) = l.
Proof.
  revert k. induction l as [|x l IH]; intros k; simpl; [done|].
  destruct k as [|[|k]]; simpl; try (by rewrite IH).
  specialize (IH (S k)).
  destruct (Frame.chunk_go n (S k) l) as [|c cs]; simpl in *;
    by rewrite <- IH.
Qed.

Lemma chunk_list_join {A} (n : nat) (l : list A) :
  mjoin (Frame.chunk_list n l) = l.
Proof. apply chunk_go_join. Qed.

(** ** The timestamp column *)

Lemma assemble_series_rows (l : list (gmap string cell)) :
  assemble_series (Frame.cell_at "Year" <$> l) (Frame.cell_at "Month" <$> l)
    (Frame.cell_at "Day" <$> l) (Frame.cell_at "Hour" <$> l)
    (Frame.cell_at "Minute" <$> l)
  = row_datetime <$> l.
Proof. induction l as [|r l IH]; simpl; [done|]. f_equal. apply IH. Qed.

Lemma parse_datetime_frame_Ok frame dt :
  parse_datetime_frame frame = Ok dt -> dt = row_datetime <$> rows frame.
Proof.
  unfold parse_datetime_frame, Frame.getitem.
  repeat (case_decide; simpl; [|discriminate]).
  intros [= <-]. apply assemble_series_rows.
Qed.

Lemma parse_datetime_frame_total frame :
  Forall (fun c => c ∈ columns frame) USE_COLS ->
  parse_datetime_frame frame = Ok (row_datetime <$> rows frame).
Proof.
  intros H. unfold parse_datetime_frame, Frame.getitem.
  rewrite Forall_forall in H.
  repeat (rewrite decide_True by (apply H; set_solver); simpl).
  by rewrite assemble_series_rows.
Qed.

Lemma setitem_computed df c (f : gmap string cell -> cell) :
  Frame.setitem df c (f <$> rows df)
  = mkFrame (if decide (c ∈ columns df) then columns df
             else columns df ++ [c])
            ((fun r => <[c := f r]> r) <$> rows df).
Proof.
  unfold Frame.setitem. f_equal.
  by rewrite zip_with_fmap_r, zip_with_diag.
Qed.

Lemma cell_at_insert c v (r : gmap string cell) :
  Frame.cell_at c (<[c := v]> r) = v.
Proof. unfold Frame.cell_at. by rewrite lookup_insert_eq. Qed.

Lemma cell_at_insert_ne c c' v (r : gmap string cell) :
  c <> c' -> Frame.cell_at c' (<[c := v]> r) = Frame.cell_at c' r.
Proof. intros. unfold Frame.cell_at. by rewrite lookup_insert_ne. Qed.

Lemma mask_rows start_ts end_ts (l : list (gmap string cell)) :
  zip_with andb
    (Frame.ge_ts start_ts <$> (Frame.cell_at "datetime" <$> (stamp <$> l)))
    (Frame.le_ts end_ts <$> (Frame.cell_at "datetime" <$> (stamp <$> l)))
  = row_in_range start_ts end_ts <$> l.
Proof.
  induction l as [|r l IH]; simpl; [done|]. f_equal; [|apply IH].
  unfold stamp. by rewrite cell_at_insert.
Qed.

Lemma any_mask (p : gmap string cell -> bool) l :
  Frame.any (p <$> l) = true <-> filter (fun r => p r = true) l <> [].
Proof.
  unfold Frame.any. induction l as [|r l IH]; simpl; [done|].
  rewrite filter_cons. destruct (p r) eqn:E; simpl.
  - split; by intros _.
  - apply IH.
Qed.

Lemma loc_mask (p : gmap string cell -> bool)
  (f : gmap string cell -> gmap string cell) l :
  fst <$> filter (fun q : gmap string cell * bool => snd q = true)
                 (zip (f <$> l) (p <$> l))
  = f <$> filter (fun r => p r = true) l.
Proof.
  induction l as [|r l IH]; simpl; [done|].
  rewrite !filter_cons. simpl. destruct (p r) eqn:E.
  - repeat case_decide; try done. simpl. f_equal. apply IH.
  - repeat case_decide; try done.
Qed.

(** One pass of the chunk loop, once the five date columns are there. *)
Lemma keep_chunk_Ok start_ts end_ts kept chunk dt :
  parse_datetime_frame chunk = Ok dt ->
  keep_chunk start_ts end_ts kept chunk
  = Ok (kept ++ kept_of_chunk start_ts end_ts chunk).
Proof.
  intros Hdt. unfold keep_chunk. rewrite Hdt. simpl.
  apply parse_datetime_frame_Ok in Hdt as ->.
  rewrite setitem_computed. fold stamp.
  unfold Frame.getitem at 1 2. simpl.
  rewrite !decide_True by (case_decide; set_solver). simpl.
  rewrite mask_rows. unfold kept_of_chunk, Frame.loc. simpl.
  rewrite loc_mask.
  destruct (Frame.any _) eqn:Hany.
  - apply any_mask in Hany. fold (dt_columns (columns chunk)).
    destruct (filter _ (rows chunk)); [done|]. done.
  - destruct (filter _ (rows chunk)) eqn:Hf.
    + by rewrite app_nil_r.
    + assert (Frame.any (row_in_range start_ts end_ts <$> rows chunk) = true)
        by (apply any_mask; by rewrite Hf).
      congruence.
Qed.

Lemma keep_chunk_Raise start_ts end_ts kept chunk e :
  parse_datetime_frame chunk = Raise e ->
  keep_chunk start_ts end_ts kept chunk = Raise e.
Proof. intros H. unfold keep_chunk. by rewrite H. Qed.

Lemma for_chunks_Ok start_ts end_ts chunks : forall kept,
  Forall (fun c => Forall (fun n => n ∈ columns c) USE_COLS) chunks ->
  for_chunks start_ts end_ts kept chunks
  = Ok (kept ++ mjoin (kept_of_chunk start_ts end_ts <$> chunks)).
Proof.
  induction chunks as [|c cs IH]; intros kept Hc; simpl.
  - by rewrite app_nil_r.
  - inversion Hc as [|? ? H1 H2]; subst.
    erewrite keep_chunk_Ok by (by apply parse_datetime_frame_total).
    simpl. rewrite IH by done. by rewrite <- app_assoc.
Qed.

(** The kept frames of a file cut into pieces: all carry the same columns,
    and their rows are the in-range rows of the whole file, in order. *)
Lemma kept_columns start_ts end_ts cols parts :
  Forall (fun f => columns f = dt_columns cols)
    (mjoin (kept_of_chunk start_ts end_ts <$> (mkFrame cols <$> parts))).
Proof.
  induction parts as [|p ps IH]; simpl; [constructor|].
  apply Forall_app. split; [|apply IH].
  unfold kept_of_chunk. simpl.
  destruct (filter _ p); repeat constructor.
Qed.

Lemma kept_rows start_ts end_ts cols parts :
  mjoin (rows <$>
    mjoin (kept_of_chunk start_ts end_ts <$> (mkFrame cols <$> parts)))
  = stamp <$> filter (fun r => row_in_range start_ts end_ts r = true)
                     (mjoin parts).
Proof.
  induction parts as [|p ps IH]; [done|].
  rewrite !fmap_cons, !mjoin_cons.
  rewrite fmap_app, join_app, IH, filter_app, fmap_app. f_equal.
  unfold kept_of_chunk. simpl.
  destruct (filter _ p); simpl; [done|]. by rewrite app_nil_r.
Qed.

Lemma union_columns_same cols : Frame.union_columns cols cols = cols.
Proof.
  unfold Frame.union_columns.
  replace (filter (fun c => c ∉ cols) cols) with (@nil string);
    [by rewrite app_nil_r|].
  symmetry. apply filter_none, Forall_forall. intros c Hin Hn. done.
Qed.

Lemma concat_same_columns cols df frames :
  Forall (fun f => columns f = cols) (df :: frames) ->
  Frame.concat (df :: frames)
  = Ok (mkFrame cols (mjoin (rows <$> (df :: frames)))).
Proof.
  intros H. inversion H as [|? ? Hdf Hfs]; subst. unfold Frame.concat.
  do 2 f_equal. clear H. induction Hfs as [|f fs Hf Hfs IH]; simpl; [done|].
  rewrite Hf, union_columns_same. apply IH.
Qed.

(** ** What [read_csv] hands to the loop *)

Lemma project_has_usecols file :
  Forall (fun c => c ∈ columns file) USE_COLS ->
  Forall (fun c => c ∈ columns (project_columns USE_COLS file)) USE_COLS.
Proof.
  rewrite !Forall_forall. intros H c Hc. simpl.
  apply list_elem_of_filter. split; [done|by apply H].
Qed.

Lemma datetime_not_usecol : "datetime" ∉ USE_COLS.
Proof. apply (bool_decide_eq_false_1 _). by vm_compute. Qed.

Lemma project_dt_columns file :
  dt_columns (columns (project_columns USE_COLS file))
  = columns (project_columns USE_COLS file) ++ ["datetime"].
Proof.
  unfold dt_columns. case_decide as H; [|done]. exfalso. simpl in H.
  apply list_elem_of_filter in H as [H _]. by apply datetime_not_usecol.
Qed.

Lemma kept_nonempty start_ts end_ts chunks :
  Forall (fun f => rows f <> [])
    (mjoin (kept_of_chunk start_ts end_ts <$> chunks)).
Proof.
  induction chunks as [|c cs IH]; [constructor|].
  rewrite fmap_cons, mjoin_cons. apply Forall_app. split; [|apply IH].
  unfold kept_of_chunk. destruct (filter _ (rows c)); repeat constructor.
  done.
Qed.

(** ** The post-processor, row by row *)

Lemma to_numeric_idem c : to_numeric (to_numeric c) = to_numeric c.
Proof. destruct c; simpl; try done. by destruct (pd_parse_number s). Qed.

Lemma to_numeric_shape c :
  to_numeric c = CNaN \/ exists q, to_numeric c = CNum q.
Proof.
  destruct c; simpl; eauto. destruct (pd_parse_number s); eauto.
Qed.

Lemma coerce_row_cons col cols r :
  coerce_row (col :: cols) r = coerce_row cols (coerce_cell r col).
Proof. reflexivity. Qed.

Lemma coerce_row_other cols : forall r c,
  c ∉ cols -> coerce_row cols r !! c = r !! c.
Proof.
  induction cols as [|col cols IH]; intros r c Hc; [done|].
  rewrite coerce_row_cons, IH by set_solver.
  unfold coerce_cell. apply lookup_insert_ne. set_solver.
Qed.

Lemma coerce_row_cell cols : forall r c,
  c ∈ cols ->
  Frame.cell_at c (coerce_row cols r) = to_numeric (Frame.cell_at c r).
Proof.
  induction cols as [|col cols IH]; intros r c Hc; [by inversion Hc|].
  rewrite coerce_row_cons.
  destruct (decide (c ∈ cols)) as [Hin|Hout].
  - rewrite IH by done. unfold coerce_cell.
    destruct (decide (col = c)) as [->|Hne].
    + by rewrite cell_at_insert, to_numeric_idem.
    + by rewrite cell_at_insert_ne.
  - apply elem_of_cons in Hc as [->|?]; [|done].
    unfold Frame.cell_at at 1. rewrite coerce_row_other by done.
    unfold coerce_cell. by rewrite lookup_insert_eq.
Qed.

Lemma coerce_columns_spec cols : forall df,
  coerce_columns df cols
  = Ok (mkFrame (columns df)
          (coerce_row (filter (fun c => c ∈ columns df) cols) <$> rows df)).
Proof.
  induction cols as [|col cols IH]; intros df; simpl.
  - destruct df as [cs rs]. simpl. f_equal. f_equal.
    symmetry. apply list_fmap_id.
  - unfold coerce_column. rewrite filter_cons. case_decide as Hin.
    + unfold Frame.getitem. rewrite decide_True by done. simpl.
      rewrite <- list_fmap_compose.
      rewrite (setitem_computed df col (to_numeric ∘ Frame.cell_at col)).
      rewrite decide_True by done. rewrite IH. simpl.
      rewrite <- list_fmap_compose. reflexivity.
    + simpl. apply IH.
Qed.

Lemma setitem_astype df c (p : gmap string cell -> bool) :
  Frame.setitem df c (Frame.astype_int (p <$> rows df))
  = mkFrame (if decide (c ∈ columns df) then columns df
             else columns df ++ [c])
      ((fun r => <[c := if p r then CNum 1 else CNum 0]> r) <$> rows df).
Proof.
  unfold Frame.astype_int. rewrite <- list_fmap_compose.
  apply (setitem_computed df c (fun r => if p r then CNum 1 else CNum 0)).
Qed.

Lemma post_process_spec df :
  post_process df
  = if decide ("precipitation" ∈ Py.lower <$> columns df)
    then Ok (mkFrame (rain_columns (Py.lower <$> columns df))
               (post_row (Py.lower <$> columns df) <$> rows df))
    else Raise (KeyError "precipitation").
Proof.
  unfold post_process. rewrite coerce_columns_spec.
  cbn [rbind Frame.rename_columns columns rows].
  match goal with
  | |- context [Frame.getitem ?d _] => set (df1 := d)
  end.
  unfold Frame.getitem. change (columns df1) with (Py.lower <$> columns df).
  case_decide as Hin; [|done]. cbn [rbind].
  rewrite <- list_fmap_compose, setitem_astype. unfold df1.
  cbn [columns rows]. rewrite <- !list_fmap_compose. reflexivity.
Qed.

Lemma gt0_spec c :
  Frame.gt0 c = true <-> exists q, c = CNum q /\ (0 < q)%Q.
Proof.
  destruct c as [q| | | |]; simpl;
    try (split; [discriminate|intros (? & ? & _); discriminate]).
  unfold Qlt. simpl. rewrite Z.ltb_lt. split.
  - intros H. exists q. split; [done|lia].
  - intros (q' & [= <-] & H). lia.
Qed.

Lemma rain_row_is_rain r :
  Frame.cell_at "is_rain" (rain_row r)
  = if Frame.gt0 (Frame.cell_at "precipitation" r) then CNum 1 else CNum 0.
Proof. apply cell_at_insert. Qed.

Lemma rain_row_other r c : c <> "is_rain" -> rain_row r !! c = r !! c.
Proof. intros. unfold rain_row. by apply lookup_insert_ne. Qed.

(** Renaming the keys of a row keeps the cell of a column whose new name
    no other column of the row takes. *)
Lemma kmap_lookup_on (f : string -> string) (r : gmap string cell) k :
  (forall k', is_Some (r !! k') -> f k' = f k -> k' = k) ->
  kmap (M2 := gmap string) f r !! f k = r !! k.
Proof.
  intros Hinj. unfold kmap. destruct (r !! k) as [x|] eqn:Hk.
  - apply elem_of_list_to_map_1'.
    + intros y Hy. apply list_elem_of_fmap in Hy as ([k' y'] & Heq & Hin).
      simpl in Heq. injection Heq as Hf ->.
      apply elem_of_map_to_list in Hin.
      assert (k' = k) as -> by (apply Hinj; [by eexists|done]).
      congruence.
    + apply list_elem_of_fmap. exists (k, x). split; [done|].
      by apply elem_of_map_to_list.
  - apply not_elem_of_list_to_map_1. intros Hin.
    apply list_elem_of_fmap in Hin as ([k1 y1] & Heq & Hin). simpl in Heq.
    apply list_elem_of_fmap in Hin as ([k' y'] & Heq' & Hin).
    simpl in Heq'. injection Heq' as -> ->.
    apply elem_of_map_to_list in Hin.
    assert (k' = k) as -> by (apply Hinj; [by eexists|done]).
    congruence.
Qed.

Lemma NoDup_fmap_eq {A B} (f : A -> B) (l : list A) a b :
  NoDup (f <$> l) -> a ∈ l -> b ∈ l -> f a = f b -> a = b.
Proof.
  induction l as [|x l IH]; intros Hnd Ha Hb Hf; [by inversion Ha|].
  rewrite fmap_cons in Hnd. apply NoDup_cons in Hnd as [Hx Hnd].
  apply elem_of_cons in Ha as [->|Ha], Hb as [->|Hb]; auto.
  - exfalso. apply Hx. rewrite Hf. by apply list_elem_of_fmap_2.
  - exfalso. apply Hx. rewrite <- Hf. by apply list_elem_of_fmap_2.
Qed.

Lemma keys_in_elem cols r k : keys_in cols r -> is_Some (r !! k) -> k ∈ cols.
Proof.
  unfold keys_in. intros H Hk. apply elem_of_dom in Hk.
  apply H in Hk. by apply elem_of_list_to_set in Hk.
Qed.

Lemma renamed_cell df r c :
  NoDup (Py.lower <$> columns df) -> keys_in (columns df) r ->
  c ∈ columns df ->
  kmap (M2 := gmap string) Py.lower r !! Py.lower c = r !! c.
Proof.
  intros Hnd Hk Hc. apply kmap_lookup_on. intros k' Hs Hf.
  eapply NoDup_fmap_eq; eauto using keys_in_elem.
Qed.

(** ** The rain indicator *)

(** C2: in the post-processed table, [is_rain] is 1 exactly when the
    precipitation cell of the row is a number greater than 0, and 0
    otherwise; the precipitation cell is a number or missing, and a missing
    one gives 0. *)
Theorem is_rain_iff_positive_precipitation df df' :
  post_process df = Ok df' ->
  forall r', r' ∈ rows df' ->
    (Frame.cell_at "is_rain" r' = CNum 1
     <-> exists q, Frame.cell_at "precipitation" r' = CNum q /\ (0 < q)%Q)
    /\ (Frame.cell_at "is_rain" r' = CNum 0
        <-> ~ exists q,
              Frame.cell_at "precipitation" r' = CNum q /\ (0 < q)%Q)
    /\ (Frame.cell_at "precipitation" r' = CNaN
        \/ exists q, Frame.cell_at "precipitation" r' = CNum q)
    /\ (Frame.cell_at "precipitation" r' = CNaN
        -> Frame.cell_at "is_rain" r' = CNum 0).
Proof.
  rewrite post_process_spec. case_decide as Hp; [|discriminate].
  intros [= <-] r' Hr'. simpl in Hr'.
  apply list_elem_of_fmap in Hr' as (r & -> & _). unfold post_row.
  set (x := coerce_row _ _).
  assert (Hx : Frame.cell_at "precipitation" (rain_row x)
               = Frame.cell_at "precipitation" x).
  { unfold Frame.cell_at. by rewrite rain_row_other. }
  rewrite Hx, rain_row_is_rain.
  pose proof (gt0_spec (Frame.cell_at "precipitation" x)) as Hg.
  assert (Hn : Frame.cell_at "precipitation" x = CNaN
               \/ exists q, Frame.cell_at "precipitation" x = CNum q).
  { unfold x. rewrite coerce_row_cell; [apply to_numeric_shape|].
    apply list_elem_of_filter. split; [done|].
    apply (bool_decide_unpack _). by vm_compute. }
  destruct (Frame.gt0 _) eqn:E.
  - assert (Hq : exists q, Frame.cell_at "precipitation" x = CNum q
                           /\ (0 < q)%Q) by (by apply Hg).
    split; [|split; [|split]].
    + split; [by intros _|done].
    + split; [discriminate|]. intros H. exfalso. by apply H.
    + exact Hn.
    + intros Hnan. destruct Hq as (q & Hq & _). congruence.
  - assert (Hq : ~ exists q, Frame.cell_at "precipitation" x = CNum q
                             /\ (0 < q)%Q).
    { intros H. apply Hg in H. discriminate. }
    split; [|split; [|split]].
    + split; [discriminate|]. intros H. exfalso. by apply Hq.
    + split; [by intros _|done].
    + exact Hn.
    + done.
Qed.

(** ** The post-processor as a whole *)

Lemma post_process_cells df df' :
  NoDup (Py.lower <$> columns df) ->
  Forall (keys_in (columns df)) (rows df) ->
  post_process df = Ok df' ->
  columns df' = rain_columns (Py.lower <$> columns df)
  /\ length (rows df') = length (rows df)
  /\ forall i r r',
       rows df !! i = Some r -> rows df' !! i = Some r' ->
       forall c, c ∈ columns df ->
         (Py.lower c ∈ MEASUREMENT_COLS ->
            Frame.cell_at (Py.lower c) r' = to_numeric (Frame.cell_at c r)
            /\ (Frame.cell_at (Py.lower c) r' = CNaN
                \/ exists q, Frame.cell_at (Py.lower c) r' = CNum q))
         /\ (Py.lower c ∉ MEASUREMENT_COLS -> Py.lower c <> "is_rain" ->
               r' !! Py.lower c = r !! c).
Proof.
  intros Hnd Hkeys. rewrite post_process_spec.
  case_decide as Hp; [|discriminate]. intros [= <-]. simpl.
  split; [done|]. split; [by rewrite length_fmap|].
  intros i r r' Hr Hr' c Hc. rewrite list_lookup_fmap, Hr in Hr'.
  injection Hr' as <-.
  assert (Hk : keys_in (columns df) r).
  { rewrite Forall_forall in Hkeys. apply Hkeys.
    by eapply list_elem_of_lookup_2. }
  pose proof (renamed_cell df r c Hnd Hk Hc) as Hren.
  unfold post_row. split.
  - intros Hm.
    assert (Hne : Py.lower c <> "is_rain").
    { intros Heq. rewrite Heq in Hm. revert Hm.
      apply (bool_decide_eq_false_1 _). by vm_compute. }
    assert (Hcell : Frame.cell_at (Py.lower c)
                      (rain_row (coerce_row
                         (filter (fun c0 => c0 ∈ Py.lower <$> columns df)
                            MEASUREMENT_COLS)
                         (kmap (M2 := gmap string) Py.lower r)))
                    = to_numeric (Frame.cell_at c r)).
    { unfold Frame.cell_at at 1. rewrite rain_row_other by done.
      fold (Frame.cell_at (Py.lower c)
              (coerce_row
                 (filter (fun c0 => c0 ∈ Py.lower <$> columns df)
                    MEASUREMENT_COLS)
                 (kmap (M2 := gmap string) Py.lower r))).
      rewrite coerce_row_cell.
      - unfold Frame.cell_at. by rewrite Hren.
      - apply list_elem_of_filter. split; [|done].
        by apply list_elem_of_fmap_2. }
    split; [done|]. rewrite Hcell. apply to_numeric_shape.
  - intros Hm Hne. rewrite rain_row_other by done.
    rewrite coerce_row_other; [done|].
    intros Hin. apply list_elem_of_filter in Hin as [_ Hin]. done.
Qed.


(** ** The post-processor and the timestamp column on any frame *)




(** ** Station fetches against a remote source *)

Variable remote : string -> option DataFrame.

Lemma read_csv_run url n file :
  1 <= n -> remote url = Some file ->
  Forall (fun c => c ∈ columns file) USE_COLS ->
  read_csv remote url USE_COLS n
  = ([EReadCsv url],
     Ok (mkFrame (columns (project_columns USE_COLS file))
           <$> Frame.chunk_list (Z.to_nat n)
                 (rows (project_columns USE_COLS file)))).
Proof.
  intros Hn Hr Hc. unfold read_csv.
  destruct (Z.ltb_spec n 1) as [?|_]; [lia|].
  rewrite Hr. unfold select_usecols. rewrite decide_True by done.
  reflexivity.
Qed.

(** A station fetch, once the file is there and has the columns: two
    events, and the in-range rows of the file whatever the chunk size. *)
Lemma read_station_hourly_run station_id start_ts end_ts n file :
  1 <= n -> remote (STATION_FILE_TEMPLATE station_id) = Some file ->
  Forall (fun c => c ∈ columns file) USE_COLS ->
  read_station_hourly remote station_id start_ts end_ts n
  = (station_events station_id,
     Ok (station_table start_ts end_ts (project_columns USE_COLS file))).
Proof.
  intros Hn Hr Hc. unfold read_station_hourly.
  rewrite (read_csv_run _ _ file) by done.
  set (T := project_columns USE_COLS file).
  set (parts := Frame.chunk_list (Z.to_nat n) (rows T)).
  cbn [Eff.bind Eff.emit Eff.lift app].
  rewrite for_chunks_Ok; cycle 1.
  { apply Forall_fmap, Forall_forall. intros p _. simpl.
    by apply project_has_usecols. }
  rewrite app_nil_l.
  pose proof (kept_columns start_ts end_ts (columns T) parts) as Hcols.
  pose proof (kept_rows start_ts end_ts (columns T) parts) as Hrows.
  pose proof (kept_nonempty start_ts end_ts (mkFrame (columns T) <$> parts))
    as Hne.
  unfold parts in Hrows at 2. rewrite chunk_list_join in Hrows.
  unfold station_table, station_events.
  destruct (mjoin _) as [|f fs] eqn:Hk.
  - symmetry in Hrows. apply fmap_nil_inv in Hrows.
    by rewrite Hrows.
  - rewrite (concat_same_columns _ _ _ Hcols), Hrows.
    destruct (filter _ (rows T)) as [|r sel] eqn:Hsel.
    + exfalso. inversion Hne as [|? ? Hf _]; subst. apply Hf.
      rewrite fmap_cons, mjoin_cons in Hrows.
      by apply app_eq_nil in Hrows as [? _].
    + reflexivity.
Qed.

(** Conversely, a fetch that returns did find the file and its columns. *)
Lemma read_station_hourly_Ok station_id start_ts end_ts n t df :
  read_station_hourly remote station_id start_ts end_ts n = (t, Ok df) ->
  exists file,
    1 <= n /\ remote (STATION_FILE_TEMPLATE station_id) = Some file
    /\ Forall (fun c => c ∈ columns file) USE_COLS
    /\ t = station_events station_id
    /\ df = station_table start_ts end_ts (project_columns USE_COLS file).
Proof.
  intros H.
  destruct (Z.ltb_spec n 1) as [Hlt|Hge].
  { unfold read_station_hourly, read_csv in H.
    destruct (Z.ltb_spec n 1); [|lia]. simpl in H. discriminate. }
  destruct (remote (STATION_FILE_TEMPLATE station_id)) as [file|] eqn:Hr.
  2:{ unfold read_station_hourly, read_csv in H.
      destruct (Z.ltb_spec n 1); [lia|]. rewrite Hr in H. simpl in H.
      discriminate. }
  destruct (decide (Forall (fun c => c ∈ columns file) USE_COLS)) as [Hc|Hc].
  2:{ unfold read_station_hourly, read_csv, select_usecols in H.
      destruct (Z.ltb_spec n 1); [lia|]. rewrite Hr in H.
      rewrite decide_False in H by done. simpl in H. discriminate. }
  rewrite (read_station_hourly_run _ _ _ _ file) in H by done.
  injection H as <- <-. by exists file.
Qed.

Lemma station_table_rows start_ts end_ts table :
  rows (station_table start_ts end_ts table)
  = stamp <$> filter (fun r => row_in_range start_ts end_ts r = true)
                     (rows table).
Proof. unfold station_table. by destruct (filter _ (rows table)). Qed.

Lemma station_table_columns start_ts end_ts table :
  columns (station_table start_ts end_ts table) <> [].
Proof.
  unfold station_table. destruct (filter _ (rows table)); simpl; [done|].
  unfold dt_columns. case_decide as H.
  - intros Heq. rewrite Heq in H. by inversion H.
  - by destruct (columns table).
Qed.

Lemma empty_iff_no_rows df :
  columns df <> [] -> (Frame.empty df = true <-> rows df = []).
Proof.
  unfold Frame.empty. intros Hc.
  destruct (rows df), (columns df); try done.
Qed.

(** Reading a column the script asked for gives the cell of the file. *)
Lemma project_cell c (r : gmap string cell) :
  c ∈ USE_COLS ->
  Frame.cell_at c (filter (fun kv => kv.1 ∈ USE_COLS) r) = Frame.cell_at c r.
Proof.
  intros Hc. unfold Frame.cell_at. destruct (r !! c) as [x|] eqn:Hr.
  - by rewrite (map_lookup_filter_Some_2 _ _ _ x).
  - by rewrite map_lookup_filter_None_2 by (by left).
Qed.

Lemma project_row_datetime (r : gmap string cell) :
  row_datetime (filter (fun kv => kv.1 ∈ USE_COLS) r) = row_datetime r.
Proof.
  unfold row_datetime.
  by rewrite !project_cell by (apply (bool_decide_unpack _); by vm_compute).
Qed.

Lemma project_row_in_range start_ts end_ts (r : gmap string cell) :
  row_in_range start_ts end_ts (filter (fun kv => kv.1 ∈ USE_COLS) r)
  = row_in_range start_ts end_ts r.
Proof. unfold row_in_range. by rewrite project_row_datetime. Qed.

(** ** The station loop *)

Lemma for_stations_cons start_ts end_ts n frames station_id rest df :
  read_station_hourly remote station_id start_ts end_ts n
  = (station_events station_id, Ok df) ->
  for_stations remote start_ts end_ts n frames (station_id :: rest)
  = (station_events station_id
       ++ Eff.trace (for_stations remote start_ts end_ts n
                       (if Frame.empty df then frames else frames ++ [df])
                       rest),
     Eff.outcome (for_stations remote start_ts end_ts n
                    (if Frame.empty df then frames else frames ++ [df])
                    rest)).
Proof.
  intros H. cbn [for_stations]. rewrite H. unfold Eff.bind.
  by destruct (for_stations _ _ _ _ _ _) as [t r].
Qed.

Lemma for_stations_run start_ts end_ts n station_ids : forall tables frames,
  Forall2 (fun station_id df =>
             Eff.outcome (read_station_hourly remote station_id
                            start_ts end_ts n) = Ok df)
          station_ids tables ->
  for_stations remote start_ts end_ts n frames station_ids
  = (mjoin (station_events <$> station_ids),
     Ok (frames ++ filter (fun df => Frame.empty df = false) tables)).
Proof.
  induction station_ids as [|sid ids IH]; intros tables frames H.
  - inversion H; subst. simpl. by rewrite app_nil_r.
  - inversion H as [|? df ? tables' Hsid Hrest]; subst.
    destruct (read_station_hourly remote sid start_ts end_ts n)
      as [t r] eqn:Hrun.
    simpl in Hsid. subst r.
    pose proof (read_station_hourly_Ok _ _ _ _ _ _ Hrun)
      as (file & _ & _ & _ & -> & _).
    rewrite (for_stations_cons _ _ _ _ _ _ df Hrun).
    rewrite (IH tables') by done.
    rewrite fmap_cons, mjoin_cons. unfold Eff.trace, Eff.outcome. simpl.
    f_equal. f_equal. rewrite filter_cons.
    destruct (Frame.empty df) eqn:E.
    + by rewrite decide_False by (by intros ?).
    + rewrite decide_True by done. by rewrite <- app_assoc.
Qed.

Lemma for_stations_Ok start_ts end_ts n station_ids : forall frames t out,
  for_stations remote start_ts end_ts n frames station_ids = (t, Ok out) ->
  exists tables,
    Forall2 (fun station_id df =>
               Eff.outcome (read_station_hourly remote station_id
                              start_ts end_ts n) = Ok df)
            station_ids tables.
Proof.
  induction station_ids as [|sid ids IH]; intros frames t out H.
  - exists []. constructor.
  - cbn [for_stations] in H.
    destruct (read_station_hourly remote sid start_ts end_ts n)
      as [t1 [df|err]] eqn:Hrun; [|discriminate].
    unfold Eff.bind in H.
    destruct (for_stations remote start_ts end_ts n _ ids)
      as [t2 [out'|err]] eqn:Hrest; [|discriminate].
    apply IH in Hrest as [tables Htables].
    exists (df :: tables). constructor; [|done]. by rewrite Hrun.
Qed.

Lemma Forall2_choice {A B} (P : A -> B -> Prop) (l : list A) :
  (forall x, x ∈ l -> exists y, P x y) -> exists k, Forall2 P l k.
Proof.
  induction l as [|x l IH]; intros H; [by exists []|].
  destruct (H x) as [y Hy]; [by left|].
  destruct IH as [k Hk]; [intros; apply H; by right|].
  exists (y :: k). by constructor.
Qed.

(** ** The station fetcher *)

(** C8: when no row of a station's file is in range, the fetch does not
    fail: it returns the table without rows whose columns are [USE_COLS]
    followed by [datetime], and the station loop goes on to the remaining
    stations with the frames it had. *)
Theorem no_match_gives_empty_table station_id start_ts end_ts n file :
  1 <= n ->
  remote (STATION_FILE_TEMPLATE station_id) = Some file ->
  Forall (fun c => c ∈ columns file) USE_COLS ->
  (forall r, r ∈ rows file -> row_in_range start_ts end_ts r = false) ->
  read_station_hourly remote station_id start_ts end_ts n
  = (station_events station_id,
     Ok {| columns := USE_COLS ++ ["datetime"]; rows := [] |})
  /\ forall frames rest,
       for_stations remote start_ts end_ts n frames (station_id :: rest)
       = (Eff.emit (EPrint "station_url:") ;;;
          Eff.emit (EReadCsv (STATION_FILE_TEMPLATE station_id)) ;;;
          for_stations remote start_ts end_ts n frames rest)%eff.
Proof.
  intros Hn Hr Hc Hnone.
  assert (Hrun : read_station_hourly remote station_id start_ts end_ts n
                 = (station_events station_id,
                    Ok {| columns := USE_COLS ++ ["datetime"]; rows := [] |})).
  { rewrite (read_station_hourly_run _ _ _ _ file) by done.
    unfold station_table. rewrite filter_none; [done|].
    apply Forall_forall. intros r Hin. simpl in Hin.
    apply list_elem_of_fmap in Hin as (r0 & -> & Hin).
    rewrite project_row_in_range, Hnone by done. discriminate. }
  split; [done|]. intros frames rest.
  rewrite (for_stations_cons _ _ _ _ _ _ _ Hrun). simpl.
  unfold Eff.bind, Eff.emit, Eff.trace, Eff.outcome.
  by destruct (for_stations _ _ _ _ _ _) as [t r].
Qed.





(** ** The aggregator *)

Lemma concat_rows frames agg :
  Frame.concat frames = Ok agg -> rows agg = mjoin (rows <$> frames).
Proof. destruct frames; [discriminate|]. by intros [= <-]. Qed.

Lemma concat_single df : Frame.concat [df] = Ok df.
Proof. destruct df. unfold Frame.concat. simpl. by rewrite app_nil_r. Qed.

Lemma rows_of_nonempty (tables : list DataFrame) :
  Forall (fun df => columns df <> []) tables ->
  mjoin (rows <$> filter (fun df => Frame.empty df = false) tables)
  = mjoin (rows <$> tables).
Proof.
  induction 1 as [|df tables Hc _ IH]; [done|].
  rewrite filter_cons, fmap_cons, mjoin_cons.
  destruct (Frame.empty df) eqn:E.
  - rewrite decide_False by (by intros ?).
    apply empty_iff_no_rows in E as ->; done.
  - rewrite decide_True by done. rewrite fmap_cons, mjoin_cons.
    by rewrite IH.
Qed.

Lemma fetched_columns station_id start_ts end_ts n df :
  Eff.outcome (read_station_hourly remote station_id start_ts end_ts n)
  = Ok df ->
  columns df <> [].
Proof.
  destruct (read_station_hourly _ _ _ _ _) as [t r] eqn:Hrun. simpl.
  intros ->. apply read_station_hourly_Ok in Hrun
    as (file & _ & _ & _ & _ & ->).
  apply station_table_columns.
Qed.

Lemma fetched_trace station_id start_ts end_ts n df :
  Eff.outcome (read_station_hourly remote station_id start_ts end_ts n)
  = Ok df ->
  Eff.trace (read_station_hourly remote station_id start_ts end_ts n)
  = station_events station_id.
Proof.
  destruct (read_station_hourly _ _ _ _ _) as [t r] eqn:Hrun. simpl.
  intros ->. by apply read_station_hourly_Ok in Hrun
    as (file & _ & _ & _ & -> & _).
Qed.

Lemma aggregate_run start_ts end_ts n station_ids tables :
  Forall2 (fun station_id df =>
             Eff.outcome (read_station_hourly remote station_id
                            start_ts end_ts n) = Ok df)
          station_ids tables ->
  aggregate remote start_ts end_ts n station_ids
  = (mjoin (station_events <$> station_ids),
     match filter (fun df => Frame.empty df = false) tables with
     | [] => Raise (ValueError
               "No data found for the provided stations and date range.")
     | frames => Frame.concat frames
     end).
Proof.
  intros H. unfold aggregate.
  rewrite (for_stations_run _ _ _ _ tables) by done. rewrite app_nil_l.
  unfold Eff.bind.
  destruct (filter _ tables); simpl; by rewrite app_nil_r.
Qed.

Lemma fetched_traces start_ts end_ts n station_ids tables :
  Forall2 (fun station_id df =>
             Eff.outcome (read_station_hourly remote station_id
                            start_ts end_ts n) = Ok df)
          station_ids tables ->
  (fun station_id =>
     Eff.trace (read_station_hourly remote station_id start_ts end_ts n))
    <$> station_ids
  = station_events <$> station_ids.
Proof.
  induction 1 as [|sid df ids tables H _ IH]; [done|].
  rewrite !fmap_cons, IH. f_equal. by eapply fetched_trace.
Qed.

(** C5: the aggregator runs the station fetcher once per identifier, in
    list order, and its table holds the rows of the fetched tables in that
    order, each table's rows in their own order, stations without rows
    adding nothing. For the list [a; b] where [a] has three rows in range
    and [b] none, the aggregated table is the table fetched for [a]. *)
Theorem aggregate_in_station_order start_ts end_ts n :
  (forall station_ids tables,
     Forall2 (fun station_id df =>
                Eff.outcome (read_station_hourly remote station_id
                               start_ts end_ts n) = Ok df)
             station_ids tables ->
     Exists (fun df => rows df <> []) tables ->
     exists agg,
       aggregate remote start_ts end_ts n station_ids
       = (mjoin ((fun station_id =>
                    Eff.trace (read_station_hourly remote station_id
                                 start_ts end_ts n)) <$> station_ids),
          Ok agg)
       /\ Frame.concat (filter (fun df => Frame.empty df = false) tables)
          = Ok agg
       /\ rows agg = mjoin (rows <$> tables))
  /\ (forall a b df_a df_b,
        Eff.outcome (read_station_hourly remote a start_ts end_ts n)
        = Ok df_a ->
        Eff.outcome (read_station_hourly remote b start_ts end_ts n)
        = Ok df_b ->
        length (rows df_a) = 3%nat -> rows df_b = [] ->
        Eff.outcome (aggregate remote start_ts end_ts n [a; b]) = Ok df_a).
Proof.
  split.
  - intros ids tables Hrun Hsome.
    assert (Hcols : Forall (fun df => columns df <> []) tables).
    { clear Hsome. induction Hrun as [|sid df ids tables H _ IH];
        constructor; [by eapply fetched_columns|done]. }
    rewrite (fetched_traces _ _ _ _ _ Hrun).
    rewrite (aggregate_run _ _ _ _ tables Hrun).
    destruct (filter _ tables) as [|f fs] eqn:Hf.
    + exfalso. apply Exists_exists in Hsome as (df & Hin & Hne).
      assert (Hdf : df ∈ filter (fun df => Frame.empty df = false) tables).
      { apply list_elem_of_filter. split; [|done].
        rewrite Forall_forall in Hcols.
        destruct (Frame.empty df) eqn:E; [|done].
        apply empty_iff_no_rows in E; [done|by apply Hcols]. }
      rewrite Hf in Hdf. by inversion Hdf.
    + destruct (Frame.concat (f :: fs)) as [agg|err] eqn:Hc; [|done].
      exists agg. split; [done|]. split; [done|].
      rewrite (concat_rows _ _ Hc), <- Hf. by apply rows_of_nonempty.
  - intros a b df_a df_b Ha Hb Hlen Hnone.
    rewrite (aggregate_run _ _ _ _ [df_a; df_b])
      by (repeat constructor; done).
    simpl. rewrite !filter_cons, filter_nil.
    assert (Frame.empty df_b = true) as ->
      by (unfold Frame.empty; by rewrite Hnone).
    assert (Frame.empty df_a = false) as ->.
    { apply fetched_columns in Ha. unfold Frame.empty.
      destruct (rows df_a), (columns df_a); done. }
    rewrite decide_True by done. rewrite decide_False by (by intros ?).
    apply concat_single.
Qed.

(** ** The run as a whole *)

Lemma bind_ret {A B} (a : A) (f : A -> Eff.M B) :
  Eff.bind (Eff.ret a) f = f a.
Proof. unfold Eff.bind, Eff.ret. by destruct (f a). Qed.

Lemma bind_Ok {A B} t (a : A) (f : A -> Eff.M B) :
  Eff.bind (t, Ok a) f = (t ++ Eff.trace (f a), Eff.outcome (f a)).
Proof. unfold Eff.bind. by destruct (f a). Qed.

Lemma bind_Raise {A B} t e (f : A -> Eff.M B) :
  Eff.bind (t, Raise e) f = (t, Raise e).
Proof. reflexivity. Qed.

Lemma no_write_in_fetches (station_ids : list string) path df :
  EToParquet path df ∉ mjoin (station_events <$> station_ids).
Proof.
  intros Hin. apply list_elem_of_join in Hin as (l & Hx & Hl).
  apply list_elem_of_fmap in Hl as (sid & -> & _).
  unfold station_events in Hx.
  apply elem_of_cons in Hx as [Hx|Hx]; [discriminate|].
  apply elem_of_cons in Hx as [Hx|Hx]; [discriminate|]. by inversion Hx.
Qed.

(** C6: when every requested station is fetched and none has a row in
    range, the run stops with the no-data error after the fetches of all
    stations, and nothing is written. *)
Theorem no_data_error args start_ts end_ts :
  pd_to_datetime (start args +:+ " 00:00") = Some start_ts ->
  pd_to_datetime (end_ args +:+ " 23:59") = Some end_ts ->
  station_ids_of (stations args) <> [] ->
  (forall station_id, station_id ∈ station_ids_of (stations args) ->
     exists df,
       Eff.outcome (read_station_hourly remote station_id start_ts end_ts
                      (chunksize args)) = Ok df
       /\ rows df = []) ->
  script remote args
  = (EMkdir OUT_DIR
       :: mjoin (station_events <$> station_ids_of (stations args)),
     Raise (ValueError
              "No data found for the provided stations and date range."))
  /\ forall path df, EToParquet path df ∉ Eff.trace (script remote args).
Proof.
  intros Hs He Hids Hall.
  assert (Hrun : script remote args
                 = (EMkdir OUT_DIR
                      :: mjoin (station_events
                                  <$> station_ids_of (stations args)),
                    Raise (ValueError
                      "No data found for the provided stations and date range."))).
  { apply Forall2_choice in Hall as [tables Htables].
    unfold script, main, to_datetime_text. rewrite Hs, He, !bind_ret.
    destruct (station_ids_of (stations args)) as [|sid ids] eqn:Eids;
      [done|].
    rewrite <- Eids in *.
    rewrite (aggregate_run _ _ _ _ tables); cycle 1.
    { eapply Forall2_impl; [exact Htables|]. by intros ? ? [? _]. }
    assert (filter (fun df => Frame.empty df = false) tables = []) as ->.
    { apply filter_none. clear -Htables.
      induction Htables as [|? df ? ? [_ Hr] _ IH]; constructor; [|done].
      unfold Frame.empty. rewrite Hr. done. }
    rewrite bind_Raise. reflexivity. }
  split; [done|]. intros path df. rewrite Hrun. simpl. intros Hin.
  apply elem_of_cons in Hin as [Hin|Hin]; [discriminate|].
  by apply no_write_in_fetches in Hin.
Qed.

(** ** Rows of a fetched table *)

Lemma in_range_time start_ts end_ts r :
  row_in_range start_ts end_ts r = true ->
  exists t,
    pd_assemble (Frame.cell_at "Year" r) (Frame.cell_at "Month" r)
      (Frame.cell_at "Day" r) (Frame.cell_at "Hour" r)
      (Frame.cell_at "Minute" r) = Some t
    /\ row_datetime r = CTime t /\ start_ts <= t <= end_ts.
Proof.
  unfold row_in_range, row_datetime.
  destruct (pd_assemble _ _ _ _ _) as [t|]; simpl; [|discriminate].
  intros H. apply andb_true_iff in H as [H1 H2].
  apply Z.leb_le in H1, H2. exists t. auto.
Qed.

Lemma fetched_row station_id start_ts end_ts n df r' :
  Eff.outcome (read_station_hourly remote station_id start_ts end_ts n)
  = Ok df ->
  r' ∈ rows df ->
  exists file r,
    remote (STATION_FILE_TEMPLATE station_id) = Some file
    /\ r ∈ rows file
    /\ r' = stamp (filter (fun kv => kv.1 ∈ USE_COLS) r)
    /\ row_in_range start_ts end_ts r = true.
Proof.
  destruct (read_station_hourly _ _ _ _ _) as [t res] eqn:Hrun. simpl.
  intros -> Hin.
  apply read_station_hourly_Ok in Hrun as (file & _ & Hr & _ & _ & ->).
  rewrite station_table_rows in Hin.
  apply list_elem_of_fmap in Hin as (r0 & -> & Hin).
  apply list_elem_of_filter in Hin as [Hrange Hin]. simpl in Hin.
  apply list_elem_of_fmap in Hin as (r & -> & Hin).
  exists file, r. rewrite project_row_in_range in Hrange. done.
Qed.

Lemma stamp_fields (r : gmap string cell) c :
  c ∈ USE_COLS ->
  Frame.cell_at c (stamp (filter (fun kv => kv.1 ∈ USE_COLS) r))
  = Frame.cell_at c r.
Proof.
  intros Hc. unfold stamp. rewrite cell_at_insert_ne.
  - by apply project_cell.
  - intros <-. by apply datetime_not_usecol.
Qed.

Lemma stamp_datetime (r : gmap string cell) :
  Frame.cell_at "datetime" (stamp (filter (fun kv => kv.1 ∈ USE_COLS) r))
  = row_datetime r.
Proof. unfold stamp. by rewrite cell_at_insert, project_row_datetime. Qed.

Lemma stamp_keys (r : gmap string cell) :
  keys_in (USE_COLS ++ ["datetime"])
    (stamp (filter (fun kv => kv.1 ∈ USE_COLS) r)).
Proof.
  unfold keys_in, stamp. intros k Hk. apply elem_of_dom in Hk as [x Hx].
  apply elem_of_list_to_set, elem_of_app.
  destruct (decide (k = "datetime")) as [->|Hne].
  - right. by left.
  - left. rewrite lookup_insert_ne in Hx by done.
    by apply map_lookup_filter_Some in Hx as [_ ?].
Qed.

(** Every row of a fetched table carries a timestamp in the range. *)
Lemma fetched_rows_in_range station_id start_ts end_ts n df r' :
  Eff.outcome (read_station_hourly remote station_id start_ts end_ts n)
  = Ok df ->
  r' ∈ rows df ->
  keys_in (USE_COLS ++ ["datetime"]) r'
  /\ exists t,
       pd_assemble (Frame.cell_at "Year" r') (Frame.cell_at "Month" r')
         (Frame.cell_at "Day" r') (Frame.cell_at "Hour" r')
         (Frame.cell_at "Minute" r') = Some t
       /\ Frame.cell_at "datetime" r' = CTime t
       /\ start_ts <= t <= end_ts.
Proof.
  intros Hrun Hin.
  destruct (fetched_row _ _ _ _ _ _ Hrun Hin) as (file & r & _ & _ & -> & Hr).
  split; [apply stamp_keys|].
  apply in_range_time in Hr as (t & Ht & Hdt & Hle). exists t.
  rewrite !stamp_fields by (apply (bool_decide_unpack _); by vm_compute).
  by rewrite stamp_datetime.
Qed.

(** The post-processor leaves the timestamp of such a row alone. *)
Lemma lower_to_datetime k :
  k ∈ USE_COLS ++ ["datetime"] -> Py.lower k = "datetime" -> k = "datetime".
Proof.
  revert k.
  apply (proj1 (Forall_forall
                  (fun k => Py.lower k = "datetime" -> k = "datetime") _)).
  apply (bool_decide_unpack _). by vm_compute.
Qed.

Lemma post_row_datetime cols r :
  keys_in (USE_COLS ++ ["datetime"]) r ->
  Frame.cell_at "datetime" (post_row cols r) = Frame.cell_at "datetime" r.
Proof.
  intros Hk. unfold post_row, Frame.cell_at.
  rewrite rain_row_other by done.
  rewrite coerce_row_other.
  - change "datetime" with (Py.lower "datetime") at 1.
    rewrite kmap_lookup_on; [done|].
    intros k' Hs Hl. apply lower_to_datetime; [|done].
    by eapply keys_in_elem.
  - intros Hin. apply list_elem_of_filter in Hin as [_ Hin]. revert Hin.
    apply (bool_decide_eq_false_1 _). by vm_compute.
Qed.

(** ** What a run can have written *)

Lemma read_station_hourly_trace station_id start_ts end_ts n :
  Eff.trace (read_station_hourly remote station_id start_ts end_ts n)
  = [EPrint "station_url:"]
  \/ Eff.trace (read_station_hourly remote station_id start_ts end_ts n)
     = station_events station_id.
Proof.
  unfold read_station_hourly, read_csv, select_usecols, station_events.
  destruct (n <? 1); [by left|]. right.
  destruct (remote _) as [file|]; [|done].
  case_decide; [|done]. simpl.
  destruct (for_chunks _ _ _ _) as [[|f fs]|err]; try done.
Qed.

Lemma for_stations_no_write start_ts end_ts n station_ids path df :
  forall frames,
  EToParquet path df
    ∉ Eff.trace (for_stations remote start_ts end_ts n frames station_ids).
Proof.
  induction station_ids as [|sid ids IH]; intros frames Hin.
  - by inversion Hin.
  - cbn [for_stations] in Hin.
    pose proof (read_station_hourly_trace sid start_ts end_ts n) as Ht.
    destruct (read_station_hourly remote sid start_ts end_ts n)
      as [t1 [d|err]]; simpl in Ht.
    + rewrite bind_Ok in Hin. simpl in Hin.
      apply elem_of_app in Hin as [Hin|Hin]; [|by apply IH in Hin].
      unfold station_events in Ht.
      destruct Ht as [-> | ->]; event_absurd Hin.
    + simpl in Hin. unfold station_events in Ht.
      destruct Ht as [-> | ->]; event_absurd Hin.
Qed.

Lemma aggregate_no_write start_ts end_ts n station_ids path df :
  EToParquet path df
    ∉ Eff.trace (aggregate remote start_ts end_ts n station_ids).
Proof.
  unfold aggregate. intros Hin.
  pose proof (for_stations_no_write start_ts end_ts n station_ids path df [])
    as Hno.
  destruct (for_stations _ _ _ _ _ _) as [t [frames|err]];
    [|by simpl in *].
  rewrite bind_Ok in Hin. simpl in Hin, Hno.
  apply elem_of_app in Hin as [Hin|Hin]; [done|].
  destruct frames; by inversion Hin.
Qed.

Lemma aggregate_Ok start_ts end_ts n station_ids t agg :
  aggregate remote start_ts end_ts n station_ids = (t, Ok agg) ->
  exists tables,
    Forall2 (fun station_id df =>
               Eff.outcome (read_station_hourly remote station_id
                              start_ts end_ts n) = Ok df)
            station_ids tables
    /\ t = mjoin (station_events <$> station_ids)
    /\ Frame.concat (filter (fun df => Frame.empty df = false) tables)
       = Ok agg.
Proof.
  intros H.
  assert (exists t' frames,
            for_stations remote start_ts end_ts n [] station_ids
            = (t', Ok frames)) as (t' & frames & Hf).
  { unfold aggregate in H.
    destruct (for_stations _ _ _ _ _ _) as [t' [frames|err]];
      [by eauto|discriminate]. }
  apply for_stations_Ok in Hf as [tables Htables].
  exists tables. split; [done|].
  rewrite (aggregate_run _ _ _ _ tables Htables) in H.
  injection H as <- H. split; [done|].
  by destruct (filter _ tables).
Qed.

Lemma Forall2_elem_r {A B} (P : A -> B -> Prop) l k y :
  Forall2 P l k -> y ∈ k -> exists x, x ∈ l /\ P x y.
Proof.
  induction 1 as [|a b l k Hab _ IH]; intros Hin; [by inversion Hin|].
  apply elem_of_cons in Hin as [->|Hin].
  - exists a. split; [by left|done].
  - destruct (IH Hin) as (x & Hx & HP). exists x. split; [by right|done].
Qed.

Lemma aggregate_rows_in_range start_ts end_ts n station_ids t agg r :
  aggregate remote start_ts end_ts n station_ids = (t, Ok agg) ->
  r ∈ rows agg ->
  keys_in (USE_COLS ++ ["datetime"]) r
  /\ exists ts, Frame.cell_at "datetime" r = CTime ts
                /\ start_ts <= ts <= end_ts.
Proof.
  intros H Hin.
  apply aggregate_Ok in H as (tables & Htables & _ & Hc).
  rewrite (concat_rows _ _ Hc) in Hin.
  apply list_elem_of_join in Hin as (rs & Hr & Hrs).
  apply list_elem_of_fmap in Hrs as (df & -> & Hdf).
  apply list_elem_of_filter in Hdf as [_ Hdf].
  destruct (Forall2_elem_r _ _ _ _ Htables Hdf) as (sid & _ & Hsid).
  destruct (fetched_rows_in_range _ _ _ _ _ _ Hsid Hr)
    as (Hk & ts & _ & Hts & Hle).
  eauto.
Qed.

(** The run after the aggregator, spelled out. *)
Lemma script_steps args start_ts end_ts :
  pd_to_datetime (start args +:+ " 00:00") = Some start_ts ->
  pd_to_datetime (end_ args +:+ " 23:59") = Some end_ts ->
  station_ids_of (stations args) <> [] ->
  script remote args
  = match aggregate remote start_ts end_ts (chunksize args)
            (station_ids_of (stations args)) with
    | (t, Raise err) => (EMkdir OUT_DIR :: t, Raise err)
    | (t, Ok agg) =>
        let prints := [EPrint "shape:"; EPrint "cols:"; EPrint "head"] in
        match post_process agg with
        | Raise err => (EMkdir OUT_DIR :: t ++ prints, Raise err)
        | Ok out =>
            match Frame.getitem out "datetime" with
            | Raise err => (EMkdir OUT_DIR :: t ++ prints, Raise err)
            | Ok _ =>
                (EMkdir OUT_DIR :: t ++ prints
                   ++ [EPrint "datetime_range:";
                       EToParquet (out_path args) out; EPrint "saved:"],
                 Ok tt)
            end
        end
    end.
Proof.
  intros Hs He Hids. unfold script, main, to_datetime_text.
  rewrite Hs, He, !bind_ret.
  destruct (station_ids_of (stations args)) as [|sid ids] eqn:Eids; [done|].
  rewrite <- Eids. clear Eids.
  destruct (aggregate _ _ _ _ _) as [t [agg|err]]; [|done].
  unfold Eff.emit, Eff.lift. rewrite !bind_Ok.
  destruct (post_process agg) as [out|err]; [|done].
  rewrite !bind_Ok.
  destruct (Frame.getitem out "datetime") as [dt|err]; [|done].
  reflexivity.
Qed.

(** ** The aggregated table is well formed, and the run then succeeds *)

Lemma union_columns_subset acc cols :
  (forall c, c ∈ cols -> c ∈ acc) -> Frame.union_columns acc cols = acc.
Proof.
  intros H. unfold Frame.union_columns. rewrite filter_none.
  - apply app_nil_r.
  - apply Forall_forall. intros c Hc Hn. by apply Hn, H.
Qed.

Lemma fold_union_columns_subset (rest : list (list string)) acc :
  Forall (fun cols => forall c, c ∈ cols -> c ∈ acc) rest ->
  fold_left Frame.union_columns rest acc = acc.
Proof.
  induction 1 as [|cols rest H _ IH]; [done|]. simpl.
  by rewrite union_columns_subset.
Qed.

Lemma fetched_columns_elem station_id start_ts end_ts n df c :
  Eff.outcome (read_station_hourly remote station_id start_ts end_ts n)
  = Ok df ->
  c ∈ USE_COLS ++ ["datetime"] -> c ∈ columns df.
Proof.
  destruct (read_station_hourly _ _ _ _ _) as [t r] eqn:Hrun. simpl.
  intros -> Hc.
  apply read_station_hourly_Ok in Hrun as (file & _ & _ & Hu & _ & ->).
  unfold station_table. destruct (filter _ _); [done|].
  cbn [columns]. rewrite project_dt_columns.
  change (c ∈ USE_COLS ++ ["datetime"]) in Hc.
  apply elem_of_app in Hc as [Hc|Hc]; apply elem_of_app; [left|by right].
  rewrite Forall_forall in Hu. simpl.
  apply list_elem_of_filter. split; [done|by apply Hu].
Qed.

Lemma fetched_columns_perm station_id start_ts end_ts n df :
  (forall url file, remote url = Some file -> NoDup (columns file)) ->
  Eff.outcome (read_station_hourly remote station_id start_ts end_ts n)
  = Ok df ->
  columns df ≡ₚ USE_COLS ++ ["datetime"].
Proof.
  intros Hnd. destruct (read_station_hourly _ _ _ _ _) as [t r] eqn:Hrun.
  unfold Eff.outcome. cbn [snd]. intros ->.
  apply read_station_hourly_Ok in Hrun as (file & _ & Hr & Hu & _ & ->).
  unfold station_table. destruct (filter _ _); [done|].
  cbn [columns]. rewrite project_dt_columns.
  apply Permutation_app_tail. simpl. apply NoDup_Permutation.
  - apply NoDup_filter. by eapply Hnd.
  - apply (bool_decide_unpack _). by vm_compute.
  - intros c. rewrite list_elem_of_filter. rewrite Forall_forall in Hu.
    split; [by intros [? _]|]. intros Hc. split; [done|by apply Hu].
Qed.

Lemma aggregated_columns start_ts end_ts n station_ids t agg :
  aggregate remote start_ts end_ts n station_ids = (t, Ok agg) ->
  exists station_id df,
    Eff.outcome (read_station_hourly remote station_id start_ts end_ts n)
    = Ok df
    /\ columns agg = columns df.
Proof.
  intros H. apply aggregate_Ok in H as (tables & Htables & _ & Hc).
  assert (Hall : Forall (fun df =>
            exists sid, Eff.outcome (read_station_hourly remote sid
                                       start_ts end_ts n) = Ok df)
            (filter (fun df => Frame.empty df = false) tables)).
  { apply Forall_forall. intros df Hdf.
    apply list_elem_of_filter in Hdf as [_ Hdf].
    destruct (Forall2_elem_r _ _ _ _ Htables Hdf) as (sid & _ & Hsid).
    eauto. }
  destruct (filter _ tables) as [|f fs]; [discriminate|].
  inversion Hall as [|? ? [sid Hsid] Hfs]; subst.
  exists sid, f. split; [done|].
  injection Hc as <-. simpl. apply fold_union_columns_subset.
  apply Forall_fmap. eapply Forall_impl; [exact Hfs|].
  intros d [sid' Hd] c Hin. simpl in Hin.
  eapply fetched_columns_elem; [exact Hsid|].
  destruct (read_station_hourly remote sid' start_ts end_ts n)
    as [t' r'] eqn:Hrun.
  simpl in Hd. subst r'.
  apply read_station_hourly_Ok in Hrun as (file & _ & _ & _ & _ & ->).
  revert Hin. unfold station_table. destruct (filter _ _); [done|].
  cbn [columns]. rewrite project_dt_columns, !elem_of_app.
  intros [Hin|Hin]; [left|by right]. simpl in Hin.
  by apply list_elem_of_filter in Hin as [? _].
Qed.

(** The frame handed to the post-processor meets the conditions under
    which the post-processor is described above, provided no file repeats a
    column name. *)
Lemma aggregated_well_formed start_ts end_ts n station_ids t agg :
  (forall url file, remote url = Some file -> NoDup (columns file)) ->
  aggregate remote start_ts end_ts n station_ids = (t, Ok agg) ->
  columns agg ≡ₚ USE_COLS ++ ["datetime"]
  /\ NoDup (Py.lower <$> columns agg)
  /\ Forall (keys_in (columns agg)) (rows agg).
Proof.
  intros Hnd H.
  destruct (aggregated_columns _ _ _ _ _ _ H) as (sid & df & Hdf & Hcols).
  assert (Hperm : columns agg ≡ₚ USE_COLS ++ ["datetime"]).
  { rewrite Hcols. by eapply fetched_columns_perm. }
  split; [done|]. split.
  - rewrite Hperm. apply (bool_decide_unpack _). by vm_compute.
  - apply Forall_forall. intros r Hr.
    destruct (aggregate_rows_in_range _ _ _ _ _ _ _ H Hr) as [Hk _].
    unfold keys_in in *. intros k Hin. apply Hk in Hin.
    apply elem_of_list_to_set. apply elem_of_list_to_set in Hin.
    by rewrite Hperm.
Qed.

(** Once the aggregator has returned a table, the rest of the run cannot
    fail: the table is post-processed and written. *)
Lemma script_writes args start_ts end_ts t agg :
  pd_to_datetime (start args +:+ " 00:00") = Some start_ts ->
  pd_to_datetime (end_ args +:+ " 23:59") = Some end_ts ->
  station_ids_of (stations args) <> [] ->
  aggregate remote start_ts end_ts (chunksize args)
    (station_ids_of (stations args)) = (t, Ok agg) ->
  exists out,
    post_process agg = Ok out
    /\ script remote args
       = (EMkdir OUT_DIR :: t
            ++ [EPrint "shape:"; EPrint "cols:"; EPrint "head";
                EPrint "datetime_range:"; EToParquet (out_path args) out;
                EPrint "saved:"],
          Ok tt).
Proof.
  intros Hs He Hids Hagg.
  rewrite (script_steps args start_ts end_ts) by done.
  destruct (aggregated_columns _ _ _ _ _ _ Hagg) as (sid & df & Hdf & Hcols).
  rewrite Hagg. cbn zeta.
  assert (Hin : forall c, c ∈ USE_COLS ++ ["datetime"] ->
                          Py.lower c ∈ Py.lower <$> columns agg).
  { intros c Hc. apply list_elem_of_fmap_2. rewrite Hcols.
    by eapply fetched_columns_elem. }
  rewrite post_process_spec.
  rewrite decide_True
    by (apply (Hin "precipitation"), (bool_decide_unpack _); by vm_compute).
  eexists. split; [reflexivity|].
  unfold Frame.getitem. cbn [columns].
  rewrite decide_True; [done|].
  unfold rain_columns. case_decide; [|apply elem_of_app; left];
    apply (Hin "datetime"), (bool_decide_unpack _); by vm_compute.
Qed.

(** C1: every row of a table the run writes carries a [datetime] between
    the start date at 00:00 and the end date at 23:59, both included; and
    every row of a table a station fetch returns (there may be none) carries
    a [datetime] between the two bounds of the fetch. *)
Theorem output_datetime_in_range :
  (forall args path out,
     EToParquet path out ∈ Eff.trace (script remote args) ->
     exists start_ts end_ts,
       pd_to_datetime (start args +:+ " 00:00") = Some start_ts
       /\ pd_to_datetime (end_ args +:+ " 23:59") = Some end_ts
       /\ forall r, r ∈ rows out ->
            exists t, Frame.cell_at "datetime" r = CTime t
                      /\ start_ts <= t <= end_ts)
  /\ (forall station_id start_ts end_ts n df,
        Eff.outcome (read_station_hourly remote station_id start_ts end_ts n)
        = Ok df ->
        forall r, r ∈ rows df ->
          exists t, Frame.cell_at "datetime" r = CTime t
                    /\ start_ts <= t <= end_ts).
Proof.
  split.
  - intros args path out Hin.
    destruct (pd_to_datetime (start args +:+ " 00:00")) as [s|] eqn:Hs.
    2:{ unfold script, main, to_datetime_text in Hin. rewrite Hs in Hin.
        simpl in Hin. event_absurd Hin. }
    destruct (pd_to_datetime (end_ args +:+ " 23:59")) as [e|] eqn:He.
    2:{ unfold script, main, to_datetime_text in Hin. rewrite Hs, He in Hin.
        simpl in Hin. event_absurd Hin. }
    exists s, e. do 2 (split; [done|]).
    destruct (decide (station_ids_of (stations args) = [])) as [Hids|Hids].
    { unfold script, main, to_datetime_text in Hin.
      rewrite Hs, He, Hids in Hin. simpl in Hin. event_absurd Hin. }
    rewrite (script_steps args s e) in Hin by done.
    pose proof (aggregate_no_write s e (chunksize args)
                  (station_ids_of (stations args)) path out) as Hno.
    destruct (aggregate remote s e (chunksize args) _)
      as [t [agg|err]] eqn:Hagg; simpl in Hno.
    2:{ simpl in Hin. apply elem_of_cons in Hin as [Hin|Hin]; done. }
    assert (Hpp : post_process agg = Ok out).
    { cbn zeta in Hin.
      destruct (post_process agg) as [out'|err] eqn:Hpp.
      - destruct (Frame.getitem out' "datetime") as [dt|err] eqn:Hget;
          simpl in Hin; apply elem_of_cons in Hin as [Hin|Hin];
          try discriminate; apply elem_of_app in Hin as [Hin|Hin];
          try done; [|event_absurd Hin].
        do 4 (apply elem_of_cons in Hin as [Hin|Hin]; [discriminate|]).
        apply elem_of_cons in Hin as [Hin|Hin]; [|event_absurd Hin].
        by injection Hin as _ ->.
      - exfalso. simpl in Hin. apply elem_of_cons in Hin as [Hin|Hin];
          [discriminate|].
        apply elem_of_app in Hin as [Hin|Hin]; [done|event_absurd Hin]. }
    rewrite post_process_spec in Hpp.
    case_decide; [|discriminate]. injection Hpp as <-. simpl.
    intros r Hr. apply list_elem_of_fmap in Hr as (r0 & -> & Hr0).
    destruct (aggregate_rows_in_range _ _ _ _ _ _ _ Hagg Hr0)
      as (Hk & ts & Hts & Hle).
    exists ts. by rewrite post_row_datetime.
  - intros sid s e n df Hrun r Hr.
    destruct (fetched_rows_in_range _ _ _ _ _ _ Hrun Hr)
      as (_ & t & _ & Ht & Hle).
    eauto.
Qed.

(** ** Malformed cells *)

(** C3 (as the script has it): a malformed cell is never an error. In the
    post-processor a measurement cell holding a text that denotes no number
    becomes missing, and its row stays where it was with its numeric
    measurements and its other columns unchanged. In a station fetch, fields
    that form no timestamp give the row the missing timestamp without
    failing the fetch, and the range filter then drops the row: every row
    that is kept has fields that form a timestamp. *)
Theorem malformed_cells_become_missing :
  (forall df,
     NoDup (Py.lower <$> columns df) ->
     Forall (keys_in (columns df)) (rows df) ->
     "precipitation" ∈ Py.lower <$> columns df ->
     exists df',
       post_process df = Ok df'
       /\ length (rows df') = length (rows df)
       /\ forall i r, rows df !! i = Some r ->
            exists r',
              rows df' !! i = Some r'
              /\ forall c, c ∈ columns df ->
                   (Py.lower c ∈ MEASUREMENT_COLS ->
                      (forall s, Frame.cell_at c r = CStr s ->
                                 pd_parse_number s = None ->
                                 Frame.cell_at (Py.lower c) r' = CNaN)
                      /\ (forall q, Frame.cell_at c r = CNum q ->
                                    Frame.cell_at (Py.lower c) r' = CNum q))
                   /\ (Py.lower c ∉ MEASUREMENT_COLS ->
                       Py.lower c <> "is_rain" ->
                       r' !! Py.lower c = r !! c))
  /\ (forall station_id start_ts end_ts n file,
        1 <= n ->
        remote (STATION_FILE_TEMPLATE station_id) = Some file ->
        Forall (fun c => c ∈ columns file) USE_COLS ->
        exists df,
          read_station_hourly remote station_id start_ts end_ts n
          = (station_events station_id, Ok df)
          /\ (forall r, r ∈ rows file ->
                pd_assemble (Frame.cell_at "Year" r)
                  (Frame.cell_at "Month" r) (Frame.cell_at "Day" r)
                  (Frame.cell_at "Hour" r) (Frame.cell_at "Minute" r)
                = None ->
                row_datetime r = CNaT
                /\ row_in_range start_ts end_ts r = false)
          /\ forall r', r' ∈ rows df ->
               exists t,
                 pd_assemble (Frame.cell_at "Year" r')
                   (Frame.cell_at "Month" r') (Frame.cell_at "Day" r')
                   (Frame.cell_at "Hour" r') (Frame.cell_at "Minute" r')
                 = Some t
                 /\ Frame.cell_at "datetime" r' = CTime t).
Proof.
  split.
  - intros df Hnd Hkeys Hp.
    destruct (post_process df) as [df'|err] eqn:Hpp.
    2:{ rewrite post_process_spec, decide_True in Hpp by done.
        discriminate. }
    exists df'. split; [done|].
    destruct (post_process_cells df df' Hnd Hkeys Hpp) as (_ & Hlen & Hcells).
    split; [done|]. intros i r Hr.
    destruct (rows df' !! i) as [r'|] eqn:Hr'.
    2:{ apply lookup_ge_None in Hr'. apply lookup_lt_Some in Hr. lia. }
    exists r'. split; [done|]. intros c Hc.
    destruct (Hcells i r r' Hr Hr' c Hc) as [Hm Ho]. split; [|done].
    intros Hin. destruct (Hm Hin) as [-> _]. split.
    + intros s -> Hs. simpl. by rewrite Hs.
    + by intros q ->.
  - intros sid s e n file Hn Hr Hc.
    pose proof (read_station_hourly_run sid s e n file Hn Hr Hc) as Hrun.
    eexists. split; [exact Hrun|]. split.
    + intros r _ Hnone. unfold row_in_range, row_datetime.
      by rewrite Hnone.
    + intros r' Hin.
      assert (Hout : Eff.outcome (read_station_hourly remote sid s e n)
                     = Ok (station_table s e (project_columns USE_COLS file)))
        by (by rewrite Hrun).
      destruct (fetched_rows_in_range _ _ _ _ _ _ Hout Hin)
        as (_ & t & Ht & Hdt & _).
      eauto.
Qed.

(** ** The station list *)

Lemma split_blank text :
  Py.all_chars (fun a => Py.isspace a || Ascii.eqb a ",") text = true ->
  Forall (fun w => Py.all_chars Py.isspace w = true) (Py.split "," text).
Proof.
  induction text as [|a text IH]; simpl; intros H.
  - by constructor.
  - apply andb_true_iff in H as [Ha H]. specialize (IH H).
    destruct (Ascii.eqb a ",").
    + by constructor.
    + simpl in Ha. rewrite orb_false_r in Ha.
      destruct (Py.split "," text) as [|w ws].
      * constructor; [|done]. simpl. by rewrite Ha.
      * inversion IH; subst. constructor; [|done]. simpl.
        by rewrite Ha.
Qed.

Lemma strip_blank w : Py.all_chars Py.isspace w = true -> Py.strip w = "".
Proof.
  unfold Py.strip. intros H.
  assert (Py.lstrip w = "") as ->; [|done].
  induction w as [|a w IH]; simpl in *; [done|].
  apply andb_true_iff in H as [-> H]. auto.
Qed.

Lemma station_ids_of_blank text :
  Py.all_chars (fun a => Py.isspace a || Ascii.eqb a ",") text = true ->
  station_ids_of text = [].
Proof.
  intros H. unfold station_ids_of. rewrite filter_none; [done|].
  eapply Forall_impl; [by apply split_blank|].
  intros w Hw. simpl in Hw. by rewrite strip_blank.
Qed.

(** C7 (as the script has it): with an empty station list the run stops
    with the configuration error before it reads any station file and
    before it writes anything; what it has done by then is to create the
    output directory when the module was loaded. A value made of blanks and
    commas gives the empty station list. *)
Theorem empty_station_list_stops_before_fetch args start_ts end_ts :
  pd_to_datetime (start args +:+ " 00:00") = Some start_ts ->
  pd_to_datetime (end_ args +:+ " 23:59") = Some end_ts ->
  station_ids_of (stations args) = [] ->
  script remote args
  = ([EMkdir OUT_DIR], Raise (ValueError "No stations provided."))
  /\ (forall url, EReadCsv url ∉ Eff.trace (script remote args))
  /\ (forall path df, EToParquet path df ∉ Eff.trace (script remote args))
  /\ (forall text,
        Py.all_chars (fun a => Py.isspace a || Ascii.eqb a ",") text = true ->
        station_ids_of text = []).
Proof.
  intros Hs He Hids.
  assert (Hrun : script remote args
                 = ([EMkdir OUT_DIR],
                    Raise (ValueError "No stations provided."))).
  { unfold script, main, to_datetime_text.
    by rewrite Hs, He, Hids, !bind_ret. }
  rewrite Hrun. simpl. split; [done|].
  split; [intros url Hin; event_absurd Hin|].
  split; [intros path df Hin; event_absurd Hin|].
  apply station_ids_of_blank.
Qed.

Lemma station_ids_of_spec text : station_ids_of text = station_list_spec text.
Proof.
  unfold station_ids_of, station_list_spec.
  induction (Py.split "," text) as [|w ws IH]; [done|].
  rewrite fmap_cons, !filter_cons.
  destruct (Py.strip w) eqn:E; simpl.
  - apply IH.
  - rewrite E. f_equal. apply IH.
Qed.

Lemma string_length_app (a b : string) :
  String.length (a +:+ b) = (String.length a + String.length b)%nat.
Proof.
  induction a as [|x a IH]; [done|].
  change (String x a +:+ b) with (String x (a +:+ b)). simpl. by rewrite IH.
Qed.

Lemma string_app_inj_r (suffix a b : string) :
  a +:+ suffix = b +:+ suffix -> a = b.
Proof.
  revert b. induction a as [|x a IH]; intros [|y b] H; [done| | |].
  - apply (f_equal String.length) in H.
    rewrite !string_length_app in H. simpl in H. lia.
  - apply (f_equal String.length) in H.
    rewrite !string_length_app in H. simpl in H. lia.
  - change (String x (a +:+ suffix) = String y (b +:+ suffix)) in H.
    injection H as -> H. f_equal. by apply IH.
Qed.

Lemma STATION_FILE_TEMPLATE_inj a b :
  STATION_FILE_TEMPLATE a = STATION_FILE_TEMPLATE b -> a = b.
Proof.
  unfold STATION_FILE_TEMPLATE. intros H.
  apply (inj (String.app _)) in H. apply (inj (String.app _)) in H.
  by apply string_app_inj_r in H.
Qed.

(** One read of a station's file per occurrence of the station. *)
Lemma count_fetches station_id (station_ids : list string) :
  length (filter (.= EReadCsv (STATION_FILE_TEMPLATE station_id))
                 (mjoin (station_events <$> station_ids)))
  = length (filter (.= station_id) station_ids).
Proof.
  induction station_ids as [|sid ids IH]; [done|].
  rewrite fmap_cons, mjoin_cons, filter_app, length_app, IH.
  unfold station_events. rewrite !filter_cons, filter_nil.
  rewrite decide_False by done.
  destruct (decide (sid = station_id)) as [->|Hne].
  - by rewrite decide_True by done.
  - rewrite decide_False; [done|].
    intros H. apply Hne, STATION_FILE_TEMPLATE_inj. congruence.
Qed.

(** The rows of a station are in the aggregated rows once per occurrence of
    the station. *)
Lemma count_rows start_ts end_ts n station_id df (r : gmap string cell)
  station_ids tables :
  Forall2 (fun sid d =>
             Eff.outcome (read_station_hourly remote sid start_ts end_ts n)
             = Ok d)
          station_ids tables ->
  Eff.outcome (read_station_hourly remote station_id start_ts end_ts n)
  = Ok df ->
  (length (filter (.= station_id) station_ids)
   * length (filter (.= r) (rows df))
   <= length (filter (.= r) (mjoin (rows <$> tables))))%nat.
Proof.
  intros H Hdf. induction H as [|sid d ids tables Hsid _ IH]; [simpl; lia|].
  rewrite fmap_cons, mjoin_cons, filter_app, length_app, filter_cons.
  destruct (decide (sid = station_id)) as [->|Hne].
  - rewrite Hdf in Hsid. injection Hsid as <-. simpl. lia.
  - lia.
Qed.

(** C10: the station list is the comma-separated entries, stripped, without
    the empty ones, in order and with repetitions; a station listed [k]
    times is read [k] times, and the aggregated rows are the rows of the
    fetched tables, one table per list entry, so that each row of that
    station is there [k] times over. *)
Theorem duplicate_stations_fetched_again text start_ts end_ts n t agg :
  aggregate remote start_ts end_ts n (station_ids_of text) = (t, Ok agg) ->
  station_ids_of text = station_list_spec text
  /\ exists tables,
       Forall2 (fun station_id df =>
                  Eff.outcome (read_station_hourly remote station_id
                                 start_ts end_ts n) = Ok df)
               (station_ids_of text) tables
       /\ rows agg = mjoin (rows <$> tables)
       /\ forall station_id df,
            Eff.outcome (read_station_hourly remote station_id
                           start_ts end_ts n) = Ok df ->
            length (filter (.= EReadCsv (STATION_FILE_TEMPLATE station_id)) t)
            = length (filter (.= station_id) (station_ids_of text))
            /\ forall r : gmap string cell,
                 (length (filter (.= station_id) (station_ids_of text))
                  * length (filter (.= r) (rows df))
                  <= length (filter (.= r) (rows agg)))%nat.
Proof.
  intros H. split; [apply station_ids_of_spec|].
  apply aggregate_Ok in H as (tables & Htables & -> & Hc).
  exists tables. split; [done|].
  assert (Hrows : rows agg = mjoin (rows <$> tables)).
  { rewrite (concat_rows _ _ Hc). apply rows_of_nonempty.
    clear Hc. induction Htables as [|sid df ids tables Hsid _ IH];
      constructor; [by eapply fetched_columns|done]. }
  split; [done|]. intros sid df Hdf. split; [apply count_fetches|].
  intros r. rewrite Hrows. by eapply count_rows.
Qed.

(** * Further properties of the script *)

(** ** The station fetcher, exactly *)

Lemma filter_fmap_rows {A B} (f : A -> B) (p : B -> bool) (l : list A) :
  filter (fun y => p y = true) (f <$> l)
  = f <$> filter (fun x => p (f x) = true) l.
Proof.
  induction l as [|x l IH]; [done|].
  rewrite fmap_cons, !filter_cons.
  destruct (p (f x)); simpl; [by rewrite IH|done].
Qed.

Lemma row_in_range_iff start_ts end_ts r :
  row_in_range start_ts end_ts r = true
  <-> exists t,
        pd_assemble (Frame.cell_at "Year" r) (Frame.cell_at "Month" r)
          (Frame.cell_at "Day" r) (Frame.cell_at "Hour" r)
          (Frame.cell_at "Minute" r) = Some t
        /\ start_ts <= t <= end_ts.
Proof.
  split.
  - intros H. apply in_range_time in H as (t & Ht & _ & Hle). eauto.
  - intros (t & Ht & Hle). unfold row_in_range, row_datetime.
    rewrite Ht. simpl. apply andb_true_iff. split; apply Z.leb_le; lia.
Qed.

Lemma station_table_project_rows start_ts end_ts file :
  rows (station_table start_ts end_ts (project_columns USE_COLS file))
  = (fun r : gmap string cell =>
       <["datetime" := row_datetime r]>
         (filter (fun kv => kv.1 ∈ USE_COLS) r))
      <$> filter (fun r => row_in_range start_ts end_ts r = true)
                 (rows file).
Proof.
  rewrite station_table_rows. cbn [project_columns rows].
  rewrite (filter_fmap_rows _ (row_in_range start_ts end_ts)).
  rewrite <- list_fmap_compose.
  erewrite (list_filter_iff _ (fun r => row_in_range start_ts end_ts r = true))
    by (intros r; by rewrite project_row_in_range).
  apply list_fmap_ext. intros i r _. simpl. unfold stamp.
  by rewrite project_row_datetime.
Qed.

(** X1: a fetch of a readable file returns, in file order, exactly the
    lines whose five date fields form a timestamp [t] with
    [start_ts <= t <= end_ts] (both bounds included), each cut to [USE_COLS]
    and given its timestamp as [datetime]. *)
Theorem fetch_keeps_exactly_the_rows_in_range
  station_id start_ts end_ts n file :
  1 <= n ->
  remote (STATION_FILE_TEMPLATE station_id) = Some file ->
  Forall (fun c => c ∈ columns file) USE_COLS ->
  exists df,
    read_station_hourly remote station_id start_ts end_ts n
    = (station_events station_id, Ok df)
    /\ rows df
       = (fun r : gmap string cell =>
            <["datetime" := row_datetime r]>
              (filter (fun kv => kv.1 ∈ USE_COLS) r))
           <$> filter (fun r => row_in_range start_ts end_ts r = true)
                      (rows file)
    /\ forall r,
         row_in_range start_ts end_ts r = true
         <-> exists t,
               pd_assemble (Frame.cell_at "Year" r) (Frame.cell_at "Month" r)
                 (Frame.cell_at "Day" r) (Frame.cell_at "Hour" r)
                 (Frame.cell_at "Minute" r) = Some t
               /\ start_ts <= t <= end_ts.
Proof.
  intros Hn Hr Hc. eexists. split; [by apply read_station_hourly_run|].
  split; [apply station_table_project_rows|apply row_in_range_iff].
Qed.

(** ** How a fetch fails *)

Lemma read_station_hourly_Raise station_id start_ts end_ts n t e :
  read_station_hourly remote station_id start_ts end_ts n = (t, Raise e) ->
  (n < 1 /\ t = [EPrint "station_url:"]
   /\ e = ValueError "chunksize must be an integer >=1")
  \/ (1 <= n /\ t = station_events station_id
      /\ remote (STATION_FILE_TEMPLATE station_id) = None
      /\ e = ReadError (STATION_FILE_TEMPLATE station_id))
  \/ (1 <= n /\ t = station_events station_id
      /\ (exists file,
            remote (STATION_FILE_TEMPLATE station_id) = Some file
            /\ ~ Forall (fun c => c ∈ columns file) USE_COLS)
      /\ e = ValueError "Usecols do not match columns").
Proof.
  intros H. destruct (Z.ltb_spec n 1) as [Hlt|Hge].
  { left. unfold read_station_hourly, read_csv in H.
    destruct (Z.ltb_spec n 1); [|lia]. simpl in H. by injection H as <- <-. }
  right.
  destruct (remote (STATION_FILE_TEMPLATE station_id)) as [file|] eqn:Hr.
  2:{ left. unfold read_station_hourly, read_csv in H.
      destruct (Z.ltb_spec n 1); [lia|]. rewrite Hr in H. simpl in H.
      by injection H as <- <-. }
  right.
  destruct (decide (Forall (fun c => c ∈ columns file) USE_COLS)) as [Hc|Hc].
  { rewrite (read_station_hourly_run _ _ _ _ file) in H by done.
    discriminate. }
  unfold read_station_hourly, read_csv, select_usecols in H.
  destruct (Z.ltb_spec n 1); [lia|]. rewrite Hr in H.
  rewrite decide_False in H by done. simpl in H.
  injection H as <- <-. eauto 6.
Qed.



(** ** How a run ends *)

Lemma for_stations_Raise start_ts end_ts n station_ids :
  forall frames t err,
  for_stations remote start_ts end_ts n frames station_ids = (t, Raise err) ->
  exists pre station_id post t1,
    station_ids = pre ++ station_id :: post
    /\ Forall (fun p => exists df,
                 Eff.outcome (read_station_hourly remote p start_ts end_ts n)
                 = Ok df) pre
    /\ read_station_hourly remote station_id start_ts end_ts n
       = (t1, Raise err)
    /\ t = mjoin (station_events <$> pre) ++ t1.
Proof.
  induction station_ids as [|sid ids IH]; intros frames t err H;
    [discriminate|].
  cbn [for_stations] in H.
  destruct (read_station_hourly remote sid start_ts end_ts n)
    as [t1 [df|err1]] eqn:Hrun.
  - rewrite bind_Ok in H. injection H as <- Hout.
    destruct (for_stations remote start_ts end_ts n _ ids)
      as [t2 r2] eqn:Hrest.
    simpl in Hout. subst r2.
    apply IH in Hrest as (pre & s & post & t3 & -> & Hpre & Hs & ->).
    exists (sid :: pre), s, post, t3. split; [done|]. split.
    + constructor; [|done]. exists df. by rewrite Hrun.
    + split; [done|].
      apply read_station_hourly_Ok in Hrun as (_ & _ & _ & _ & -> & _).
      unfold Eff.trace. cbn [fst].
      by rewrite fmap_cons, mjoin_cons, <- app_assoc.
  - simpl in H. injection H as <- <-.
    exists [], sid, ids, t1. repeat split; [constructor|done].
Qed.

Lemma for_stations_abort start_ts end_ts n pre :
  forall frames station_id post t1 err,
  Forall (fun p => exists df,
            Eff.outcome (read_station_hourly remote p start_ts end_ts n)
            = Ok df) pre ->
  read_station_hourly remote station_id start_ts end_ts n
  = (t1, Raise err) ->
  for_stations remote start_ts end_ts n frames (pre ++ station_id :: post)
  = (mjoin (station_events <$> pre) ++ t1, Raise err).
Proof.
  induction pre as [|p pre IH]; intros frames sid post t1 err Hpre Hsid.
  - simpl. by rewrite Hsid.
  - inversion Hpre as [|? ? [df Hdf] Hrest]; subst.
    destruct (read_station_hourly remote p start_ts end_ts n)
      as [tp rp] eqn:Hrun.
    simpl in Hdf. subst rp.
    pose proof (read_station_hourly_Ok _ _ _ _ _ _ Hrun)
      as (_ & _ & _ & _ & -> & _).
    change ((p :: pre) ++ sid :: post) with (p :: (pre ++ sid :: post)).
    rewrite (for_stations_cons _ _ _ _ _ _ df Hrun).
    rewrite (IH _ _ _ _ _ Hrest Hsid).
    unfold Eff.trace, Eff.outcome. cbn [fst snd].
    by rewrite fmap_cons, mjoin_cons, <- app_assoc.
Qed.

Lemma concat_cons_Ok f fs : exists agg, Frame.concat (f :: fs) = Ok agg.
Proof. unfold Frame.concat. eauto. Qed.

Lemma aggregate_Raise start_ts end_ts n station_ids t err :
  aggregate remote start_ts end_ts n station_ids = (t, Raise err) ->
  err = ValueError "No data found for the provided stations and date range."
  \/ exists pre station_id post t1,
       station_ids = pre ++ station_id :: post
       /\ Forall (fun p => exists df,
                    Eff.outcome (read_station_hourly remote p
                                   start_ts end_ts n) = Ok df) pre
       /\ read_station_hourly remote station_id start_ts end_ts n
          = (t1, Raise err)
       /\ t = mjoin (station_events <$> pre) ++ t1.
Proof.
  unfold aggregate. intros H.
  destruct (for_stations remote start_ts end_ts n [] station_ids)
    as [t' [frames|err']] eqn:Hf.
  - left. rewrite bind_Ok in H. destruct frames as [|f fs].
    + simpl in H. by injection H as _ <-.
    + simpl in H. discriminate.
  - right. simpl in H. injection H as <- <-.
    by apply for_stations_Raise in Hf.
Qed.

(** The two ways a run can end. *)
Lemma script_cases args :
  (exists start_ts end_ts t agg out,
     pd_to_datetime (start args +:+ " 00:00") = Some start_ts
     /\ pd_to_datetime (end_ args +:+ " 23:59") = Some end_ts
     /\ station_ids_of (stations args) <> []
     /\ aggregate remote start_ts end_ts (chunksize args)
          (station_ids_of (stations args)) = (t, Ok agg)
     /\ post_process agg = Ok out
     /\ script remote args
        = (EMkdir OUT_DIR :: t
             ++ [EPrint "shape:"; EPrint "cols:"; EPrint "head";
                 EPrint "datetime_range:"; EToParquet (out_path args) out;
                 EPrint "saved:"],
           Ok tt)
     /\ forall path df, EToParquet path df ∉ t)
  \/ (exists t err,
        script remote args = (t, Raise err)
        /\ (forall path df, EToParquet path df ∉ t)
        /\ ((exists text, err = DateParseError text)
            \/ (exists msg, err = ValueError msg
                            /\ msg <> "No objects to concatenate")
            \/ (exists station_id,
                  station_id ∈ station_ids_of (stations args)
                  /\ err = ReadError (STATION_FILE_TEMPLATE station_id)))).
Proof.
  destruct (pd_to_datetime (start args +:+ " 00:00")) as [s|] eqn:Hs.
  2:{ right. eexists _, _. split.
      - unfold script, main, to_datetime_text. rewrite Hs. reflexivity.
      - split; [intros p d Hin; simpl in Hin; event_absurd Hin|].
        left. eauto. }
  destruct (pd_to_datetime (end_ args +:+ " 23:59")) as [e|] eqn:He.
  2:{ right. eexists _, _. split.
      - unfold script, main, to_datetime_text. rewrite Hs, He. reflexivity.
      - split; [intros p d Hin; simpl in Hin; event_absurd Hin|].
        left. eauto. }
  destruct (decide (station_ids_of (stations args) = [])) as [Hids|Hids].
  { right. eexists _, _. split.
    - unfold script, main, to_datetime_text. rewrite Hs, He, Hids.
      reflexivity.
    - split; [intros p d Hin; simpl in Hin; event_absurd Hin|].
      right. left. eexists. split; [done|discriminate]. }
  destruct (aggregate remote s e (chunksize args)
              (station_ids_of (stations args))) as [t [agg|err]] eqn:Hagg.
  - left.
    destruct (script_writes args s e t agg Hs He Hids Hagg)
      as (out & Hpp & Hrun).
    exists s, e, t, agg, out. repeat (split; [done|]).
    intros p d Hin.
    apply (aggregate_no_write s e (chunksize args)
             (station_ids_of (stations args)) p d).
    by rewrite Hagg.
  - right. exists (EMkdir OUT_DIR :: t), err. split.
    + rewrite (script_steps args s e) by done. by rewrite Hagg.
    + split.
      * intros p d Hin. apply elem_of_cons in Hin as [Hin|Hin];
          [discriminate|].
        apply (aggregate_no_write s e (chunksize args)
                 (station_ids_of (stations args)) p d).
        by rewrite Hagg.
      * apply aggregate_Raise in Hagg
          as [->|(pre & sid & post & t1 & Hids' & _ & Hsid & _)].
        { right. left. eexists. split; [done|discriminate]. }
        apply read_station_hourly_Raise in Hsid
          as [(_ & _ & ->)|[(_ & _ & _ & ->)|(_ & _ & _ & ->)]].
        -- right. left. eexists. split; [done|discriminate].
        -- right. right. exists sid. split; [|done].
           rewrite Hids'. apply elem_of_app. right. by left.
        -- right. left. eexists. split; [done|discriminate].
Qed.




(** ** The table that is written *)

Lemma written_inv args path out :
  EToParquet path out ∈ Eff.trace (script remote args) ->
  exists start_ts end_ts t agg,
    pd_to_datetime (start args +:+ " 00:00") = Some start_ts
    /\ pd_to_datetime (end_ args +:+ " 23:59") = Some end_ts
    /\ aggregate remote start_ts end_ts (chunksize args)
         (station_ids_of (stations args)) = (t, Ok agg)
    /\ post_process agg = Ok out.
Proof.
  intros Hin.
  destruct (script_cases args)
    as [(s & e & t & agg & out' & Hs & He & _ & Hagg & Hpp & Hrun & Hno)
       |(t & err & Hrun & Hno & _)]; rewrite Hrun in Hin; simpl in Hin.
  - exists s, e, t, agg. repeat (split; [done|]).
    apply elem_of_cons in Hin as [Hin|Hin]; [discriminate|].
    apply elem_of_app in Hin as [Hin|Hin]; [by apply Hno in Hin|].
    do 4 (apply elem_of_cons in Hin as [Hin|Hin]; [discriminate|]).
    apply elem_of_cons in Hin as [Hin|Hin]; [congruence|].
    event_absurd Hin.
  - by apply Hno in Hin.
Qed.

Lemma fetched_columns_within station_id start_ts end_ts n df c :
  Eff.outcome (read_station_hourly remote station_id start_ts end_ts n)
  = Ok df ->
  c ∈ columns df -> c ∈ USE_COLS ++ ["datetime"].
Proof.
  destruct (read_station_hourly _ _ _ _ _) as [t r] eqn:Hrun.
  unfold Eff.outcome. cbn [snd]. intros ->.
  apply read_station_hourly_Ok in Hrun as (file & _ & _ & _ & _ & ->).
  unfold station_table. destruct (filter _ _); [done|].
  cbn [columns]. rewrite project_dt_columns, !elem_of_app.
  intros [Hin|Hin]; [left|by right]. simpl in Hin.
  by apply list_elem_of_filter in Hin as [? _].
Qed.

(** The aggregated table starts from the first listed station that has a
    row in range. *)
Lemma aggregated_first_frame start_ts end_ts n station_ids t agg :
  aggregate remote start_ts end_ts n station_ids = (t, Ok agg) ->
  exists station_id file,
    station_id ∈ station_ids
    /\ remote (STATION_FILE_TEMPLATE station_id) = Some file
    /\ filter (fun r => row_in_range start_ts end_ts r = true) (rows file)
       <> []
    /\ columns agg
       = filter (fun c => c ∈ USE_COLS) (columns file) ++ ["datetime"]
    /\ rows agg <> [].
Proof.
  intros H. apply aggregate_Ok in H as (tables & Htables & _ & Hc).
  assert (Hall : Forall (fun df =>
            Frame.empty df = false
            /\ exists sid, sid ∈ station_ids
                 /\ Eff.outcome (read_station_hourly remote sid
                                   start_ts end_ts n) = Ok df)
            (filter (fun df => Frame.empty df = false) tables)).
  { apply Forall_forall. intros df Hdf.
    apply list_elem_of_filter in Hdf as [He Hdf]. split; [done|].
    destruct (Forall2_elem_r _ _ _ _ Htables Hdf) as (sid & ? & Hsid).
    eauto. }
  destruct (filter _ tables) as [|f fs]; [discriminate|].
  inversion Hall as [|? ? [Hne (sid & Hin & Hsid)] Hfs]; subst.
  assert (Hcols : columns agg = columns f).
  { injection Hc as <-. simpl. apply fold_union_columns_subset.
    apply Forall_fmap. eapply Forall_impl; [exact Hfs|].
    intros d [_ (sid' & _ & Hd)] c Hc. simpl in Hc.
    eapply fetched_columns_elem; [exact Hsid|].
    by eapply fetched_columns_within. }
  assert (Hrows : rows f <> []).
  { intros Hr. unfold Frame.empty in Hne. by rewrite Hr in Hne. }
  assert (Hagg : rows agg <> []).
  { rewrite (concat_rows _ _ Hc), fmap_cons, mjoin_cons.
    intros Heq. by apply app_eq_nil in Heq as [? _]. }
  destruct (read_station_hourly remote sid start_ts end_ts n)
    as [t' r'] eqn:Hrun.
  unfold Eff.outcome in Hsid. cbn [snd] in Hsid. subst r'.
  apply read_station_hourly_Ok in Hrun as (file & _ & Hr & _ & _ & ->).
  exists sid, file. split; [done|]. split; [done|].
  rewrite station_table_project_rows in Hrows.
  assert (Hsel : filter (fun r => row_in_range start_ts end_ts r = true)
                        (rows file) <> []).
  { intros Heq. by rewrite Heq in Hrows. }
  split; [done|]. split; [|done].
  rewrite Hcols. unfold station_table.
  destruct (filter _ (rows (project_columns USE_COLS file))) eqn:Hf.
  - exfalso. pose proof (station_table_project_rows start_ts end_ts file)
      as Hp.
    rewrite station_table_rows, Hf in Hp. symmetry in Hp.
    apply fmap_nil_inv in Hp. done.
  - cbn [columns]. apply project_dt_columns.
Qed.

(** X4: a run never writes a table without rows: when the file is written,
    some listed station has a line in range, and the table has a row. *)
Theorem written_table_has_rows args path out :
  EToParquet path out ∈ Eff.trace (script remote args) ->
  rows out <> []
  /\ exists start_ts end_ts station_id file r,
       pd_to_datetime (start args +:+ " 00:00") = Some start_ts
       /\ pd_to_datetime (end_ args +:+ " 23:59") = Some end_ts
       /\ station_id ∈ station_ids_of (stations args)
       /\ remote (STATION_FILE_TEMPLATE station_id) = Some file
       /\ r ∈ rows file
       /\ row_in_range start_ts end_ts r = true.
Proof.
  intros Hin.
  apply written_inv in Hin as (s & e & t & agg & Hs & He & Hagg & Hpp).
  apply aggregated_first_frame in Hagg
    as (sid & file & Hsid & Hr & Hsel & _ & Hrows).
  split.
  - rewrite post_process_spec in Hpp. case_decide; [|discriminate].
    injection Hpp as <-. simpl. intros Heq.
    by apply fmap_nil_inv in Heq.
  - destruct (filter _ (rows file)) as [|r sel] eqn:Hf; [done|].
    assert (Hin : r ∈ filter (fun r => row_in_range s e r = true)
                             (rows file)) by (rewrite Hf; by left).
    apply list_elem_of_filter in Hin as [Hrange Hin].
    exists s, e, sid, file, r. done.
Qed.

Lemma lower_not_is_rain c :
  c ∈ USE_COLS ++ ["datetime"] -> Py.lower c <> "is_rain".
Proof.
  revert c.
  apply (proj1 (Forall_forall (fun c => Py.lower c <> "is_rain") _)).
  apply (bool_decide_unpack _). by vm_compute.
Qed.



(** ** From the files to the written table *)

Lemma lower_inj_cols a b :
  a ∈ USE_COLS ++ ["datetime"] -> b ∈ USE_COLS ++ ["datetime"] ->
  Py.lower a = Py.lower b -> a = b.
Proof.
  intros Ha Hb.
  assert (H : Forall (fun a => Forall (fun b => Py.lower a = Py.lower b
                                                -> a = b)
                                      (USE_COLS ++ ["datetime"]))
                     (USE_COLS ++ ["datetime"])).
  { apply (bool_decide_unpack _). by vm_compute. }
  rewrite Forall_forall in H. specialize (H a Ha).
  rewrite Forall_forall in H. by apply H.
Qed.

Lemma renamed_source_cell (r0 : gmap string cell) c :
  keys_in (USE_COLS ++ ["datetime"]) r0 ->
  c ∈ USE_COLS ++ ["datetime"] ->
  kmap (M2 := gmap string) Py.lower r0 !! Py.lower c = r0 !! c.
Proof.
  intros Hk Hc. apply kmap_lookup_on. intros k' Hs Hl.
  apply lower_inj_cols; [by eapply keys_in_elem|done|done].
Qed.

Lemma post_row_source_cell cols (r0 : gmap string cell) c :
  keys_in (USE_COLS ++ ["datetime"]) r0 ->
  c ∈ USE_COLS ++ ["datetime"] ->
  Py.lower c ∈ cols ->
  Frame.cell_at (Py.lower c) (post_row cols r0)
  = if decide (Py.lower c ∈ MEASUREMENT_COLS)
    then to_numeric (Frame.cell_at c r0)
    else Frame.cell_at c r0.
Proof.
  intros Hk Hc Hcols. unfold post_row.
  unfold Frame.cell_at at 1.
  rewrite rain_row_other by (by apply lower_not_is_rain).
  case_decide as Hm.
  - fold (Frame.cell_at (Py.lower c)
            (coerce_row (filter (fun c0 => c0 ∈ cols) MEASUREMENT_COLS)
               (kmap (M2 := gmap string) Py.lower r0))).
    rewrite coerce_row_cell by (by apply list_elem_of_filter).
    unfold Frame.cell_at. by rewrite renamed_source_cell.
  - rewrite coerce_row_other.
    + unfold Frame.cell_at. by rewrite renamed_source_cell.
    + intros Hin. by apply list_elem_of_filter in Hin as [_ ?].
Qed.

Lemma post_row_source_rain cols (r0 : gmap string cell) :
  keys_in (USE_COLS ++ ["datetime"]) r0 ->
  "precipitation" ∈ cols ->
  Frame.cell_at "is_rain" (post_row cols r0)
  = if Frame.gt0 (to_numeric (Frame.cell_at "precipitation" r0))
    then CNum 1 else CNum 0.
Proof.
  intros Hk Hcols. unfold post_row. rewrite rain_row_is_rain.
  rewrite coerce_row_cell.
  - change "precipitation" with (Py.lower "precipitation") at 1.
    unfold Frame.cell_at.
    rewrite renamed_source_cell;
      [done|done|apply (bool_decide_unpack _); by vm_compute].
  - apply list_elem_of_filter. split; [done|].
    apply (bool_decide_unpack _). by vm_compute.
Qed.

Lemma aggregate_row_source start_ts end_ts n station_ids t agg r0 :
  aggregate remote start_ts end_ts n station_ids = (t, Ok agg) ->
  r0 ∈ rows agg ->
  exists station_id file r,
    station_id ∈ station_ids
    /\ remote (STATION_FILE_TEMPLATE station_id) = Some file
    /\ r ∈ rows file
    /\ r0 = stamp (filter (fun kv => kv.1 ∈ USE_COLS) r)
    /\ row_in_range start_ts end_ts r = true.
Proof.
  intros H Hin.
  apply aggregate_Ok in H as (tables & Htables & _ & Hc).
  rewrite (concat_rows _ _ Hc) in Hin.
  apply list_elem_of_join in Hin as (rs & Hr & Hrs).
  apply list_elem_of_fmap in Hrs as (df & -> & Hdf).
  apply list_elem_of_filter in Hdf as [_ Hdf].
  destruct (Forall2_elem_r _ _ _ _ Htables Hdf) as (sid & Hsid & Hout).
  destruct (fetched_row _ _ _ _ _ _ Hout Hr)
    as (file & r & Hfile & Hrin & Heq & Hrange).
  exists sid, file, r. done.
Qed.

(** X6: every row of the written table comes from a line in range of the
    file of a listed station: its [datetime] is the timestamp of the line,
    each requested column holds the cell of the line, passed through
    [to_numeric] when it is a measurement column, and [is_rain] is 1 exactly
    when the precipitation cell of the line denotes a number above 0. *)
Theorem written_rows_come_from_files args path out :
  EToParquet path out ∈ Eff.trace (script remote args) ->
  exists start_ts end_ts,
    pd_to_datetime (start args +:+ " 00:00") = Some start_ts
    /\ pd_to_datetime (end_ args +:+ " 23:59") = Some end_ts
    /\ forall r', r' ∈ rows out ->
         exists station_id file r,
           station_id ∈ station_ids_of (stations args)
           /\ remote (STATION_FILE_TEMPLATE station_id) = Some file
           /\ r ∈ rows file
           /\ row_in_range start_ts end_ts r = true
           /\ Frame.cell_at "datetime" r' = row_datetime r
           /\ (forall c, c ∈ USE_COLS ->
                 Frame.cell_at (Py.lower c) r'
                 = if decide (Py.lower c ∈ MEASUREMENT_COLS)
                   then to_numeric (Frame.cell_at c r)
                   else Frame.cell_at c r)
           /\ Frame.cell_at "is_rain" r'
              = if Frame.gt0 (to_numeric (Frame.cell_at "precipitation" r))
                then CNum 1 else CNum 0.
Proof.
  intros Hin.
  apply written_inv in Hin as (s & e & t & agg & Hs & He & Hagg & Hpp).
  exists s, e. do 2 (split; [done|]).
  pose proof (aggregated_columns _ _ _ _ _ _ Hagg)
    as (sid0 & df0 & Hdf0 & Hcols0).
  assert (Hcol : forall c, c ∈ USE_COLS ++ ["datetime"] ->
                           Py.lower c ∈ Py.lower <$> columns agg).
  { intros c Hc. apply list_elem_of_fmap_2. rewrite Hcols0.
    by eapply fetched_columns_elem. }
  rewrite post_process_spec in Hpp. case_decide as Hp; [|discriminate].
  injection Hpp as <-. cbn [rows]. intros r' Hr'.
  apply list_elem_of_fmap in Hr' as (r0 & -> & Hr0).
  destruct (aggregate_row_source _ _ _ _ _ _ _ Hagg Hr0)
    as (sid & file & r & Hsid & Hfile & Hr & -> & Hrange).
  exists sid, file, r. repeat (split; [done|]).
  pose proof (stamp_keys r) as Hk.
  split; [|split].
  - by rewrite post_row_datetime, stamp_datetime.
  - intros c Hc.
    rewrite post_row_source_cell;
      [|done|apply elem_of_app; by left|apply Hcol, elem_of_app; by left].
    by rewrite stamp_fields.
  - rewrite post_row_source_rain by done.
    by rewrite stamp_fields by (apply (bool_decide_unpack _); by vm_compute).
Qed.

Lemma tables_of_files start_ts end_ts n station_ids tables :
  Forall2 (fun station_id df =>
             Eff.outcome (read_station_hourly remote station_id
                            start_ts end_ts n) = Ok df)
          station_ids tables ->
  exists files,
    Forall2 (fun station_id file =>
               remote (STATION_FILE_TEMPLATE station_id) = Some file)
            station_ids files
    /\ tables
       = (fun file => station_table start_ts end_ts
                        (project_columns USE_COLS file)) <$> files.
Proof.
  induction 1 as [|sid df ids tables Hsid _ (files & Hfiles & ->)].
  - exists []. split; [constructor|done].
  - destruct (read_station_hourly remote sid start_ts end_ts n)
      as [t r] eqn:Hrun.
    unfold Eff.outcome in Hsid. cbn [snd] in Hsid. subst r.
    apply read_station_hourly_Ok in Hrun as (file & _ & Hr & _ & _ & ->).
    exists (file :: files). split; [by constructor|done].
Qed.

(** X7: the written table has as many rows as there are lines in range in
    the files of the listed stations, a station listed several times being
    counted each time: no line in range is lost and no row is made up. *)
Theorem written_row_count args path out :
  EToParquet path out ∈ Eff.trace (script remote args) ->
  exists start_ts end_ts files,
    pd_to_datetime (start args +:+ " 00:00") = Some start_ts
    /\ pd_to_datetime (end_ args +:+ " 23:59") = Some end_ts
    /\ Forall2 (fun station_id file =>
                  remote (STATION_FILE_TEMPLATE station_id) = Some file)
               (station_ids_of (stations args)) files
    /\ length (rows out)
       = sum_list_with
           (fun file =>
              length (filter (fun r => row_in_range start_ts end_ts r = true)
                             (rows file)))
           files.
Proof.
  intros Hin.
  apply written_inv in Hin as (s & e & t & agg & Hs & He & Hagg & Hpp).
  apply aggregate_Ok in Hagg as (tables & Htables & _ & Hc).
  assert (Hrows : rows agg = mjoin (rows <$> tables)).
  { rewrite (concat_rows _ _ Hc). apply rows_of_nonempty.
    clear Hc. induction Htables as [|sid df ids tables Hsid _ IH];
      constructor; [by eapply fetched_columns|done]. }
  apply tables_of_files in Htables as (files & Hfiles & ->).
  exists s, e, files. repeat (split; [done|]).
  rewrite post_process_spec in Hpp. case_decide; [|discriminate].
  injection Hpp as <-. cbn [rows]. rewrite length_fmap, Hrows.
  clear. induction files as [|file files IH]; [done|].
  rewrite !fmap_cons, mjoin_cons, length_app, IH.
  rewrite station_table_project_rows, length_fmap. reflexivity.
Qed.


(** ** Edge cases of the range and of the fetches *)

(** X8: when the end of the range lies before its start, every fetch that
    returns gives a table without rows, and the run does not succeed and
    writes nothing. *)
Theorem reversed_range_gives_no_data args start_ts end_ts :
  pd_to_datetime (start args +:+ " 00:00") = Some start_ts ->
  pd_to_datetime (end_ args +:+ " 23:59") = Some end_ts ->
  end_ts < start_ts ->
  (forall station_id n df,
     Eff.outcome (read_station_hourly remote station_id start_ts end_ts n)
     = Ok df ->
     rows df = [])
  /\ Eff.outcome (script remote args) <> Ok tt
  /\ forall path out, EToParquet path out ∉ Eff.trace (script remote args).
Proof.
  intros Hs He Hlt.
  assert (Hno : forall path out,
            EToParquet path out ∉ Eff.trace (script remote args)).
  { intros path out Hin.
    apply written_inv in Hin as (s & e & t & agg & Hs' & He' & Hagg & _).
    rewrite Hs in Hs'. rewrite He in He'.
    injection Hs' as <-. injection He' as <-.
    pose proof (aggregated_first_frame _ _ _ _ _ _ Hagg)
      as (_ & _ & _ & _ & _ & _ & Hrows).
    destruct (rows agg) as [|r rs] eqn:Hr; [done|].
    assert (Hin : r ∈ rows agg) by (rewrite Hr; by left).
    destruct (aggregate_rows_in_range _ _ _ _ _ _ _ Hagg Hin)
      as (_ & ts & _ & Hle).
    lia. }
  split; [|split; [|done]].
  - intros sid n df Hdf. destruct (rows df) as [|r rs] eqn:Hr; [done|].
    assert (Hin : r ∈ rows df) by (rewrite Hr; by left).
    destruct (fetched_rows_in_range _ _ _ _ _ _ Hdf Hin)
      as (_ & t & _ & _ & Hle).
    lia.
  - intros Hok.
    destruct (script_cases args)
      as [(s & e & t & agg & out & _ & _ & _ & _ & _ & Hrun & _)
         |(t & err & Hrun & _ & _)].
    + apply (Hno (out_path args) out). rewrite Hrun. simpl.
      right. apply elem_of_app. right. do 4 right. by left.
    + rewrite Hrun in Hok. discriminate.
Qed.

(** X9: a station whose file cannot be read stops the run at that station:
    the stations listed before it have been fetched, the ones after it are
    not, the run ends in the read error of that station and writes
    nothing. *)
Theorem unreadable_station_aborts_run args start_ts end_ts
  pre station_id post :
  pd_to_datetime (start args +:+ " 00:00") = Some start_ts ->
  pd_to_datetime (end_ args +:+ " 23:59") = Some end_ts ->
  1 <= chunksize args ->
  station_ids_of (stations args) = pre ++ station_id :: post ->
  Forall (fun p => exists df,
            Eff.outcome (read_station_hourly remote p start_ts end_ts
                           (chunksize args)) = Ok df) pre ->
  remote (STATION_FILE_TEMPLATE station_id) = None ->
  script remote args
  = (EMkdir OUT_DIR
       :: mjoin (station_events <$> pre) ++ station_events station_id,
     Raise (ReadError (STATION_FILE_TEMPLATE station_id))).
Proof.
  intros Hs He Hn Hids Hpre Hnone.
  assert (Hsid : read_station_hourly remote station_id start_ts end_ts
                   (chunksize args)
                 = (station_events station_id,
                    Raise (ReadError (STATION_FILE_TEMPLATE station_id)))).
  { unfold read_station_hourly, read_csv.
    destruct (Z.ltb_spec (chunksize args) 1); [lia|]. by rewrite Hnone. }
  rewrite (script_steps args start_ts end_ts) by (by rewrite ?Hids; destruct pre).
  unfold aggregate. rewrite Hids.
  by rewrite (for_stations_abort _ _ _ _ _ _ _ _ _ Hpre Hsid).
Qed.




(** ** The station list, entry by entry *)

Lemma rstrip_idem s : Py.rstrip (Py.rstrip s) = Py.rstrip s.
Proof.
  induction s as [|a s IH]; [done|]. simpl.
  destruct (Py.rstrip s) as [|b t] eqn:E.
  - destruct (Py.isspace a) eqn:Ea; [done|]. simpl. by rewrite Ea.
  - simpl. simpl in IH. by rewrite IH.
Qed.

Lemma rstrip_head a s :
  Py.isspace a = false -> exists u, Py.rstrip (String a s) = String a u.
Proof.
  intros Ha. simpl. destruct (Py.rstrip s); [rewrite Ha|]; eauto.
Qed.

Lemma lstrip_head s :
  Py.lstrip s = ""
  \/ exists a u, Py.lstrip s = String a u /\ Py.isspace a = false.
Proof.
  induction s as [|a s IH]; [by left|]. simpl.
  destruct (Py.isspace a) eqn:Ea; [done|]. right. eauto.
Qed.

Lemma strip_idem s : Py.strip (Py.strip s) = Py.strip s.
Proof.
  unfold Py.strip.
  destruct (lstrip_head s) as [->|(a & u & -> & Ha)]; [done|].
  destruct (rstrip_head a u Ha) as [v Hv]. rewrite Hv.
  assert (Py.lstrip (String a v) = String a v) as ->
    by (simpl; by rewrite Ha).
  by rewrite <- Hv, rstrip_idem.
Qed.

Lemma lstrip_all_chars p s :
  Py.all_chars p s = true -> Py.all_chars p (Py.lstrip s) = true.
Proof.
  induction s as [|a s IH]; [done|]. simpl. intros H.
  destruct (Py.isspace a); [|done].
  apply andb_true_iff in H as [_ H]. auto.
Qed.

Lemma rstrip_all_chars p s :
  Py.all_chars p s = true -> Py.all_chars p (Py.rstrip s) = true.
Proof.
  induction s as [|a s IH]; [done|]. simpl. intros H.
  apply andb_true_iff in H as [Ha H]. specialize (IH H).
  destruct (Py.rstrip s) as [|b t].
  - destruct (Py.isspace a); [done|]. simpl. by rewrite Ha.
  - change (Py.all_chars p (String a (String b t)))
      with (p a && Py.all_chars p (String b t)).
    by rewrite Ha, IH.
Qed.

Lemma split_pieces sep s :
  Forall (fun w => Py.all_chars (fun a => negb (Ascii.eqb a sep)) w = true)
         (Py.split sep s).
Proof.
  induction s as [|a s IH]; simpl; [by repeat constructor|].
  destruct (Ascii.eqb a sep) eqn:Ea; [by constructor|].
  destruct (Py.split sep s) as [|w ws].
  - repeat constructor. simpl. by rewrite Ea.
  - inversion IH as [|? ? Hw Hws]; subst. constructor; [|done].
    simpl. by rewrite Ea, Hw.
Qed.

(** X13: every entry of the station list is non-empty, has no blank at
    either end (stripping it again changes nothing) and contains no
    comma. *)
Theorem station_ids_are_clean text station_id :
  station_id ∈ station_ids_of text ->
  station_id <> ""
  /\ Py.strip station_id = station_id
  /\ Py.all_chars (fun a => negb (Ascii.eqb a ",")) station_id = true.
Proof.
  unfold station_ids_of. intros Hin.
  apply list_elem_of_fmap in Hin as (w & -> & Hw).
  apply list_elem_of_filter in Hw as [Ht Hw].
  split; [|split].
  - intros Heq. by rewrite Heq in Ht.
  - apply strip_idem.
  - unfold Py.strip. apply rstrip_all_chars, lstrip_all_chars.
    pose proof (split_pieces "," text) as Hp.
    rewrite Forall_forall in Hp. by apply Hp.
Qed.

Lemma string_app_cons a (x y : string) :
  String a x +:+ y = String a (x +:+ y).
Proof. reflexivity. Qed.

Lemma split_nosep sep x :
  Py.all_chars (fun a => negb (Ascii.eqb a sep)) x = true ->
  Py.split sep x = [x].
Proof.
  induction x as [|a x IH]; [done|]. simpl. intros H.
  apply andb_true_iff in H as [Ha H]. apply negb_true_iff in Ha.
  by rewrite Ha, IH.
Qed.

Lemma split_app sep x rest :
  Py.all_chars (fun a => negb (Ascii.eqb a sep)) x = true ->
  Py.split sep (x +:+ String sep rest) = x :: Py.split sep rest.
Proof.
  induction x as [|a x IH]; intros H.
  - change ("" +:+ String sep rest) with (String sep rest). simpl.
    by rewrite Ascii.eqb_refl.
  - simpl in H. apply andb_true_iff in H as [Ha H].
    apply negb_true_iff in Ha.
    rewrite string_app_cons. simpl. by rewrite Ha, IH.
Qed.

Lemma split_join (l : list string) :
  l <> [] ->
  Forall (fun s => Py.all_chars (fun a => negb (Ascii.eqb a ",")) s = true)
         l ->
  Py.split "," (Py.join "," l) = l.
Proof.
  unfold Py.join. intros Hne H.
  induction H as [|x l Hx Hl IH]; [done|].
  destruct l as [|y l].
  - simpl. by apply split_nosep.
  - change (String.concat "," (x :: y :: l))
      with (x +:+ String "," (String.concat "," (y :: l))).
    rewrite split_app by done. f_equal. by apply IH.
Qed.

Lemma clean_entries_kept (l : list string) :
  Forall (fun s => s <> "" /\ Py.strip s = s) l ->
  Py.strip <$> filter (fun s => Py.truthy (Py.strip s) = true) l = l.
Proof.
  induction 1 as [|y l [Hy1 Hy2] _ IH]; [done|].
  rewrite filter_cons_True; cycle 1.
  { rewrite Hy2. by destruct y. }
  by rewrite fmap_cons, Hy2, IH.
Qed.

(** X14: joining station identifiers with commas and reading the list back
    gives the identifiers again, when none contains a comma, none is empty
    and none has a blank at either end; this is how the default value of
    [--stations] yields the built-in stations. Splitting alone already gives
    a non-empty comma-free list back. *)
Theorem station_list_round_trip (l : list string) :
  Forall (fun s => Py.all_chars (fun a => negb (Ascii.eqb a ",")) s = true)
         l ->
  (l <> [] -> Py.split "," (Py.join "," l) = l)
  /\ (Forall (fun s => s <> "" /\ Py.strip s = s) l ->
      station_ids_of (Py.join "," l) = l).
Proof.
  intros H. split; [intros Hne; by apply split_join|].
  intros Hclean. destruct l as [|x l]; [done|].
  unfold station_ids_of. rewrite split_join by done.
  by apply clean_entries_kept.
Qed.


(** X15: a run that succeeds has done, in this order: created the output
    directory, announced and read the file of every listed station in list
    order, printed its three summaries and the timestamp range, written the
    post-processed table once and confirmed it. All stations are read before
    anything is written. *)
Theorem successful_run_trace args :
  Eff.outcome (script remote args) = Ok tt ->
  exists out,
    Eff.trace (script remote args)
    = EMkdir OUT_DIR
        :: mjoin (station_events <$> station_ids_of (stations args))
        ++ [EPrint "shape:"; EPrint "cols:"; EPrint "head";
            EPrint "datetime_range:"; EToParquet (out_path args) out;
            EPrint "saved:"].
Proof.
  intros Hok.
  destruct (script_cases args)
    as [(s & e & t & agg & out & _ & _ & _ & Hagg & _ & Hrun & _)
       |(t & err & Hrun & _ & _)]; rewrite Hrun in *; [|discriminate].
  apply aggregate_Ok in Hagg as (_ & _ & -> & _). by exists out.
Qed.

End Properties.

(** * The properties on the example data *)

Lemma is_rain_iff_positive_precipitation_witness :
  post_process (L := Calendar.library) Example.aggregated
  = Ok Example.processed
  /\ forall r', r' ∈ rows Example.processed ->
       (Frame.cell_at "is_rain" r' = CNum 1
        <-> exists q, Frame.cell_at "precipitation" r' = CNum q /\ (0 < q)%Q)
       /\ (Frame.cell_at "is_rain" r' = CNum 0
           <-> ~ exists q,
                 Frame.cell_at "precipitation" r' = CNum q /\ (0 < q)%Q)
       /\ (Frame.cell_at "precipitation" r' = CNaN
           \/ exists q, Frame.cell_at "precipitation" r' = CNum q)
       /\ (Frame.cell_at "precipitation" r' = CNaN
           -> Frame.cell_at "is_rain" r' = CNum 0).
Proof.
  split; [vm_cast_no_check (eq_refl (Ok Example.processed))|].
  apply (is_rain_iff_positive_precipitation (L := Calendar.library)
           Example.aggregated Example.processed).
  vm_cast_no_check (eq_refl (Ok Example.processed)).
Defined.


Lemma output_datetime_in_range_witness :
  exists start_ts end_ts,
    Calendar.to_datetime "2024-01-01 00:00" = Some start_ts
    /\ Calendar.to_datetime "2024-01-02 23:59" = Some end_ts
    /\ forall r, r ∈ rows Example.processed ->
         exists t, Frame.cell_at "datetime" r = CTime t
                   /\ start_ts <= t <= end_ts.
Proof.
  apply (proj1 (output_datetime_in_range (L := Calendar.library)
                  Example.remote)
           (Example.args "A, B" 2)
           "data/raw/weather_hourly/weather_hourly_2024-01-01_to_2024-01-02.parquet"
           Example.processed).
  apply (bool_decide_unpack _). vm_cast_no_check I.
Defined.

Lemma malformed_cells_become_missing_witness :
  exists df,
    read_station_hourly (L := Calendar.library) Example.remote "A"
      Example.start_ts Example.end_ts 2
    = (station_events "A", Ok df)
    /\ (forall r, r ∈ rows Example.file_A ->
          Calendar.assemble (Frame.cell_at "Year" r)
            (Frame.cell_at "Month" r) (Frame.cell_at "Day" r)
            (Frame.cell_at "Hour" r) (Frame.cell_at "Minute" r)
          = None ->
          row_datetime (L := Calendar.library) r = CNaT
          /\ row_in_range (L := Calendar.library)
               Example.start_ts Example.end_ts r = false)
    /\ forall r', r' ∈ rows df ->
         exists t,
           Calendar.assemble (Frame.cell_at "Year" r')
             (Frame.cell_at "Month" r') (Frame.cell_at "Day" r')
             (Frame.cell_at "Hour" r') (Frame.cell_at "Minute" r')
           = Some t
           /\ Frame.cell_at "datetime" r' = CTime t.
Proof.
  apply (proj2 (malformed_cells_become_missing (L := Calendar.library)
                  Example.remote)
           "A" Example.start_ts Example.end_ts 2 Example.file_A).
  - lia.
  - reflexivity.
  - apply (bool_decide_unpack _). vm_cast_no_check I.
Defined.

(** C3, as the specification words it, fails on station A: its file has a
    line whose month is 13, and no row of the fetched table has the fields
    of that line. *)
Lemma invalid_timestamp_row_is_dropped :
  ~ retains_invalid_timestamp_rows (L := Calendar.library) Example.remote
      "A" Example.start_ts Example.end_ts 2.
Proof.
  intros H.
  destruct (H Example.file_A Example.bad_row) as (df & r' & Hdf & Hin & Hc).
  - reflexivity.
  - apply (bool_decide_unpack _). vm_cast_no_check I.
  - vm_compute. reflexivity.
  - destruct (fetched_rows_in_range _ _ _ _ _ _ _ Hdf Hin)
      as (_ & t & Ht & _).
    rewrite !Hc in Ht by (apply (bool_decide_unpack _); vm_compute; exact I).
    vm_compute in Ht. discriminate.
Qed.


Lemma aggregate_in_station_order_witness :
  Eff.outcome (aggregate (L := Calendar.library) Example.remote
                 Example.start_ts Example.end_ts 2 ["A"; "B"])
  = Ok (Example.fetched "A").
Proof.
  apply (proj2 (aggregate_in_station_order (L := Calendar.library)
                  Example.remote Example.start_ts Example.end_ts 2)
           "A" "B" (Example.fetched "A") (Example.fetched "B")).
  - vm_cast_no_check (eq_refl (Ok (Example.fetched "A"))).
  - vm_cast_no_check (eq_refl (Ok (Example.fetched "B"))).
  - vm_compute. reflexivity.
  - vm_compute. reflexivity.
Defined.

Lemma no_data_error_witness :
  script (L := Calendar.library) Example.remote (Example.args " B, " 2)
  = (EMkdir OUT_DIR :: mjoin (station_events <$> ["B"]),
     Raise (ValueError
              "No data found for the provided stations and date range."))
  /\ forall path df,
       EToParquet path df
         ∉ Eff.trace (script (L := Calendar.library) Example.remote
                        (Example.args " B, " 2)).
Proof.
  apply (no_data_error (L := Calendar.library) Example.remote
           (Example.args " B, " 2) Example.start_ts Example.end_ts).
  - vm_compute. reflexivity.
  - vm_compute. reflexivity.
  - vm_compute. discriminate.
  - intros sid Hin. change (sid ∈ ["B"]) in Hin.
    apply list_elem_of_singleton in Hin as ->.
    exists (Example.fetched "B"). split.
    + vm_cast_no_check (eq_refl (Ok (Example.fetched "B"))).
    + vm_compute. reflexivity.
Defined.

Lemma empty_station_list_stops_before_fetch_witness :
  script (L := Calendar.library) Example.remote (Example.args "  , " 2)
  = ([EMkdir OUT_DIR], Raise (ValueError "No stations provided.")).
Proof.
  apply (empty_station_list_stops_before_fetch (L := Calendar.library)
           Example.remote (Example.args "  , " 2)
           Example.start_ts Example.end_ts).
  - vm_compute. reflexivity.
  - vm_compute. reflexivity.
  - vm_compute. reflexivity.
Defined.

(** C7, as the specification words it, fails for a station value of
    blanks: the list is empty and the run stops with the configuration
    error, but its trace is not empty. *)
Lemma output_directory_created_first :
  station_ids_of (stations (Example.args "  " 2)) = []
  /\ ~ fails_before_any_io (L := Calendar.library) Example.remote
         (Example.args "  " 2).
Proof.
  split; [reflexivity|]. unfold fails_before_any_io. vm_compute.
  discriminate.
Qed.

Lemma no_match_gives_empty_table_witness :
  read_station_hourly (L := Calendar.library) Example.remote "B"
    Example.start_ts Example.end_ts 2
  = (station_events "B",
     Ok {| columns := USE_COLS ++ ["datetime"]; rows := [] |}).
Proof.
  apply (no_match_gives_empty_table (L := Calendar.library) Example.remote
           "B" Example.start_ts Example.end_ts 2 Example.file_B).
  - lia.
  - reflexivity.
  - apply (bool_decide_unpack _). vm_cast_no_check I.
  - intros r Hr. apply list_elem_of_singleton in Hr as ->.
    vm_compute. reflexivity.
Defined.

Lemma duplicate_stations_fetched_again_witness :
  length (filter (.= EReadCsv (STATION_FILE_TEMPLATE "A"))
                 Example.trace_twice) = 2%nat
  /\ length (rows Example.aggregated_twice)
     = (2 * length (rows (Example.fetched "A")))%nat.
Proof.
  destruct (duplicate_stations_fetched_again (L := Calendar.library)
              Example.remote Example.listed_twice
              Example.start_ts Example.end_ts 2
              Example.trace_twice Example.aggregated_twice)
    as (_ & tables & _ & _ & Hcount).
  - vm_cast_no_check
      (eq_refl (Example.trace_twice, Ok Example.aggregated_twice)).
  - destruct (Hcount "A" (Example.fetched "A")) as [Hfetch _].
    + vm_cast_no_check (eq_refl (Ok (Example.fetched "A"))).
    + split; [|vm_compute; reflexivity].
      rewrite Hfetch. vm_compute. reflexivity.
Defined.

(** ** The further properties on the example data *)

Lemma fetch_keeps_exactly_the_rows_in_range_witness :
  exists df,
    read_station_hourly (L := Calendar.library) Example.remote "A"
      Example.start_ts Example.end_ts 2
    = (station_events "A", Ok df)
    /\ length (rows df) = 3%nat.
Proof.
  destruct (fetch_keeps_exactly_the_rows_in_range (L := Calendar.library)
              Example.remote "A" Example.start_ts Example.end_ts 2
              Example.file_A) as (df & Hrun & Hrows & _).
  - lia.
  - reflexivity.
  - apply (bool_decide_unpack _). vm_cast_no_check I.
  - exists df. split; [exact Hrun|]. rewrite Hrows. vm_compute. reflexivity.
Defined.


Lemma written_table_has_rows_witness : rows Example.processed <> [].
Proof.
  apply (written_table_has_rows (L := Calendar.library) Example.remote
           (Example.args "A, B" 2) Example.written_path Example.processed).
  apply (bool_decide_unpack _). vm_cast_no_check I.
Defined.


Lemma written_rows_come_from_files_witness :
  exists start_ts end_ts,
    Calendar.to_datetime "2024-01-01 00:00" = Some start_ts
    /\ Calendar.to_datetime "2024-01-02 23:59" = Some end_ts
    /\ forall r', r' ∈ rows Example.processed ->
         exists station_id file r,
           station_id ∈ station_ids_of "A, B"
           /\ Example.remote (STATION_FILE_TEMPLATE station_id) = Some file
           /\ r ∈ rows file
           /\ row_in_range (L := Calendar.library) start_ts end_ts r = true
           /\ Frame.cell_at "datetime" r'
              = row_datetime (L := Calendar.library) r
           /\ (forall c, c ∈ USE_COLS ->
                 Frame.cell_at (Py.lower c) r'
                 = if decide (Py.lower c ∈ MEASUREMENT_COLS)
                   then to_numeric (L := Calendar.library)
                          (Frame.cell_at c r)
                   else Frame.cell_at c r)
           /\ Frame.cell_at "is_rain" r'
              = if Frame.gt0 (to_numeric (L := Calendar.library)
                                (Frame.cell_at "precipitation" r))
                then CNum 1 else CNum 0.
Proof.
  apply (written_rows_come_from_files (L := Calendar.library) Example.remote
           (Example.args "A, B" 2) Example.written_path Example.processed).
  apply (bool_decide_unpack _). vm_cast_no_check I.
Defined.

Lemma written_row_count_witness :
  exists start_ts end_ts files,
    Calendar.to_datetime "2024-01-01 00:00" = Some start_ts
    /\ Calendar.to_datetime "2024-01-02 23:59" = Some end_ts
    /\ Forall2 (fun station_id file =>
                  Example.remote (STATION_FILE_TEMPLATE station_id)
                  = Some file)
               (station_ids_of "A, B") files
    /\ length (rows Example.processed)
       = sum_list_with
           (fun file =>
              length (filter (fun r => row_in_range (L := Calendar.library)
                                         start_ts end_ts r = true)
                             (rows file)))
           files.
Proof.
  apply (written_row_count (L := Calendar.library) Example.remote
           (Example.args "A, B" 2) Example.written_path Example.processed).
  apply (bool_decide_unpack _). vm_cast_no_check I.
Defined.

Lemma reversed_range_gives_no_data_witness :
  Eff.outcome (script (L := Calendar.library) Example.remote
                 Example.reversed_args) <> Ok tt.
Proof.
  apply (reversed_range_gives_no_data (L := Calendar.library) Example.remote
           Example.reversed_args 28402560 28402559).
  - vm_compute. reflexivity.
  - vm_compute. reflexivity.
  - lia.
Defined.

Lemma unreadable_station_aborts_run_witness :
  script (L := Calendar.library) Example.remote (Example.args "A, Z, B" 2)
  = (EMkdir OUT_DIR :: mjoin (station_events <$> ["A"]) ++ station_events "Z",
     Raise (ReadError (STATION_FILE_TEMPLATE "Z"))).
Proof.
  apply (unreadable_station_aborts_run (L := Calendar.library) Example.remote
           (Example.args "A, Z, B" 2) Example.start_ts Example.end_ts
           ["A"] "Z" ["B"]).
  - vm_compute. reflexivity.
  - vm_compute. reflexivity.
  - simpl. lia.
  - reflexivity.
  - constructor; [|constructor]. exists (Example.fetched "A").
    vm_cast_no_check (eq_refl (Ok (Example.fetched "A"))).
  - reflexivity.
Defined.


Lemma station_ids_are_clean_witness :
  "A" <> ""
  /\ Py.strip "A" = "A"
  /\ Py.all_chars (fun a => negb (Ascii.eqb a ",")) "A" = true.
Proof.
  apply (station_ids_are_clean " A ,,B, A" "A").
  apply (bool_decide_unpack _). vm_compute. exact I.
Defined.

Lemma station_list_round_trip_witness :
  station_ids_of (stations (default_args "2024-01-01" "2024-01-02"))
  = CORE_STATIONS.
Proof.
  apply (station_list_round_trip CORE_STATIONS).
  - apply (bool_decide_unpack _). vm_compute. exact I.
  - apply (bool_decide_unpack _). vm_compute. exact I.
Defined.

Lemma successful_run_trace_witness :
  exists out,
    Eff.trace (script (L := Calendar.library) Example.remote
                 (Example.args "A, B" 2))
    = EMkdir OUT_DIR
        :: mjoin (station_events <$> station_ids_of "A, B")
        ++ [EPrint "shape:"; EPrint "cols:"; EPrint "head";
            EPrint "datetime_range:";
            EToParquet (out_path (Example.args "A, B" 2)) out;
            EPrint "saved:"].
Proof.
  apply (successful_run_trace (L := Calendar.library) Example.remote
           (Example.args "A, B" 2)).
  vm_compute. reflexivity.
Defined.


